(** * MJ Figurines API: order intake, pricing and product seeding

    A shallow embedding of [main.py] and of the [Figurine] and [Order]
    schemas of [schemas.py], together with the properties of the order
    endpoint, the product endpoint and the startup seeding routine.

    Python values are embedded as follows:
    - [str] is a list of Unicode code points ([pystr]);
    - [int] is [Z];
    - [float] is a primitive binary64 [float], so that [*] and [+]
      round exactly as they do in CPython;
    - a value stored in a document is a [value], dynamically typed as in
      Python ([None], [bool], [int], [float], [str] or a list of them);
      an absent dictionary key is [None] of an [option]. *)

From Stdlib Require Import ZArith NArith List Bool String Ascii Lia.
From Stdlib Require Import Floats.
From Stdlib Require Uint63.
Import ListNotations.

Local Open Scope Z_scope.

(** ** Python strings *)

Module PyStr.

Definition pystr := list N.

(** A string literal of the source, which is ASCII throughout. *)
Definition lit (s : string) : pystr :=
  map N_of_ascii (list_ascii_of_string s).

Definition len (s : pystr) : Z := Z.of_nat (List.length s).

(** [str.isspace] on one code point: CPython's [_PyUnicode_IsWhitespace]. *)
Definition isspace (c : N) : bool :=
  ((9 <=? c) && (c <=? 13) || (28 <=? c) && (c <=? 32)
   || (c =? 133) || (c =? 160) || (c =? 5760)
   || (8192 <=? c) && (c <=? 8202)
   || (c =? 8232) || (c =? 8233) || (c =? 8239) || (c =? 8287)
   || (c =? 12288))%N.

Fixpoint lstrip (s : pystr) : pystr :=
  match s with
  | [] => []
  | c :: rest => if isspace c then lstrip rest else s
  end.

Definition rstrip (s : pystr) : pystr := rev (lstrip (rev s)).

(** [s.strip()] with no argument. *)
Definition strip (s : pystr) : pystr := rstrip (lstrip s).

(** Truth value of a string: empty strings are false. *)
Definition truthy (s : pystr) : bool :=
  match s with [] => false | _ :: _ => true end.

Fixpoint eqb (a b : pystr) : bool :=
  match a, b with
  | [], [] => true
  | x :: a', y :: b' => N.eqb x y && eqb a' b'
  | _, _ => false
  end.

End PyStr.

Import PyStr.

(** ** Python floats *)

Module PyFloat.

(** Conversion of an [int] operand in mixed arithmetic: correctly
    rounded, exact on every integer below [2^53] in magnitude.  Beyond
    the binary64 range Python raises [OverflowError] where this gives an
    infinity; [create_order] converts quantities of 1 to 10 only. *)
Definition of_int (n : Z) : float :=
  SF2Prim (binary_normalize prec emax n 0 false).

(** [num / den] rounded to the nearest integer, ties to even
    ([den] positive). *)
Definition div_half_even (num den : Z) : Z :=
  let q := num / den in
  let r := num mod den in
  match 2 * r ?= den with
  | Lt => q
  | Gt => q + 1
  | Eq => if Z.even q then q else q + 1
  end.

(** The built-in [round(x, 2)] on a float.  CPython converts [x] to the
    correctly rounded decimal with two digits after the point (ties of
    the exact binary value go to the even digit) and reads that decimal
    back as the nearest double; non-finite values and zeros round to
    themselves. *)
Definition round2 (x : float) : float :=
  match Prim2SF x with
  | S754_finite s m e =>
      let hundredths :=
        match e with
        | Zneg k => div_half_even (Zpos m * 100) (Zpos (Pos.shiftl 1 (Npos k)))
        | _ => Zpos m * 100 * 2 ^ e
        end in
      match hundredths with
      | Zpos n =>
          SF2Prim (SFdiv prec emax (S754_finite s n 0) (S754_finite false 100 0))
      | _ => SF2Prim (S754_zero s)
      end
  | _ => x
  end.

(** The constraint [ge=0] of a float field. *)
Definition ge0 (x : float) : bool := PrimFloat.leb 0 x.

End PyFloat.

Import PyFloat.

#[local] Set Warnings "-inexact-float,-register-all".

(** ** Exceptions and handler outcomes *)

Inductive exn :=
| HTTPException (status_code : Z) (detail : string)
| ValidationError (model : string) (fields : list string)
| TypeError
| ValueError
| OverflowError
| StoreUnavailable.

Inductive outcome (A : Type) :=
| Returned (a : A)
| Raised (e : exn).

Arguments Returned {A} a.
Arguments Raised {A} e.

(** The status FastAPI answers with: 200 for a returned value, the
    [status_code] of an [HTTPException], and 500 for every other
    exception that escapes a handler. *)
Definition http_status {A} (r : outcome A) : Z :=
  match r with
  | Returned _ => 200
  | Raised (HTTPException s _) => s
  | Raised _ => 500
  end.

Definition client_error (s : Z) : bool := (400 <=? s) && (s <=? 499).

(** ** Schemas ([schemas.py]) *)

Record Figurine := {
  name : pystr;
  width_cm : float;
  height_cm : float;
  material : pystr;
  price_usd : float;
  images : option (list pystr);
  description : option pystr;
  customizable_base : bool
}.

Record Order := {
  product_id : option pystr;
  custom_name : pystr;
  quantity : Z;
  customer_name : pystr;
  customer_email : pystr;
  shipping_address : pystr;
  unit_price_usd : float;
  total_usd : float;
  notes : option pystr
}.

(** One entry per field whose constraint fails, in field order. *)
Definition check (ok : bool) (field : string) : list string :=
  if ok then [] else [field].

(** [Figurine(...)]: [name] is required, the three numbers are [ge=0]. *)
Definition new_Figurine (name : option pystr) (width_cm height_cm : float)
    (material : pystr) (price_usd : float) (images : option (list pystr))
    (description : option pystr) (customizable_base : bool) : outcome Figurine :=
  let errors :=
    check (match name with Some _ => true | None => false end) "name"
    ++ check (ge0 width_cm) "width_cm"
    ++ check (ge0 height_cm) "height_cm"
    ++ check (ge0 price_usd) "price_usd" in
  match name, errors with
  | Some n, [] =>
      Returned {| name := n; width_cm := width_cm; height_cm := height_cm;
                  material := material; price_usd := price_usd; images := images;
                  description := description;
                  customizable_base := customizable_base |}
  | _, _ => Raised (ValidationError "Figurine" errors)
  end.

Section OrderSchema.

(** [EmailStr]: the validator of the [email_validator] package, which
    gives back the normalised address or refuses the string. *)
Variable validate_email : pystr -> option pystr.

(** The fields of [Order(...)] whose [Field] constraints fail. *)
Definition Order_errors (custom_name : pystr) (quantity : Z)
    (customer_email shipping_address : pystr) (unit_price_usd total_usd : float)
  : list string :=
  check ((1 <=? len custom_name) && (len custom_name <=? 24)) "custom_name"
  ++ check ((1 <=? quantity) && (quantity <=? 10)) "quantity"
  ++ check (match validate_email customer_email with
            | Some _ => true
            | None => false
            end) "customer_email"
  ++ check (8 <=? len shipping_address) "shipping_address"
  ++ check (ge0 unit_price_usd) "unit_price_usd"
  ++ check (ge0 total_usd) "total_usd".

(** [Order(...)]: the validated record, or a [ValidationError] naming
    every failing field. *)
Definition new_Order (product_id : option pystr) (custom_name : pystr)
    (quantity : Z) (customer_name customer_email shipping_address : pystr)
    (unit_price_usd total_usd : float) (notes : option pystr) : outcome Order :=
  match validate_email customer_email,
        Order_errors custom_name quantity customer_email shipping_address
          unit_price_usd total_usd with
  | Some e, [] =>
      Returned {| product_id := product_id; custom_name := custom_name;
                  quantity := quantity; customer_name := customer_name;
                  customer_email := e; shipping_address := shipping_address;
                  unit_price_usd := unit_price_usd; total_usd := total_usd;
                  notes := notes |}
  | _, errors => Raised (ValidationError "Order" errors)
  end.

End OrderSchema.

(** ** Stored values and their conversions *)

(** What a key of a stored document can hold: [None], a [bool], an
    [int], a [float], a [str] or a list of such values.  Embedded
    documents, dates, binary data and identifiers are left out. *)
Inductive value :=
| VNone
| VBool (b : bool)
| VInt (n : Z)
| VFloat (x : float)
| VStr (s : pystr)
| VList (items : list value).

Section Conversions.

(** [float(s)] on a string: the number it denotes, or [None] where
    Python raises [ValueError]. *)
Variable float_of_str : pystr -> option float.

(** The built-in [float(v)].  [None] and lists are a [TypeError], a
    string that is no number a [ValueError], an [int] beyond the
    binary64 range an [OverflowError]. *)
Definition py_float (v : value) : outcome float :=
  match v with
  | VFloat x => Returned x
  | VInt n =>
      if is_infinity (of_int n) then Raised OverflowError
      else Returned (of_int n)
  | VBool b => Returned (if b then 1 else 0)%float
  | VStr s =>
      match float_of_str s with
      | Some x => Returned x
      | None => Raised ValueError
      end
  | VNone | VList _ => Raised TypeError
  end.

End Conversions.

(** The built-in [bool(v)]. *)
Definition py_bool (v : value) : bool :=
  match v with
  | VNone => false
  | VBool b => b
  | VInt n => negb (n =? 0)
  | VFloat x => negb (PrimFloat.eqb x 0)
  | VStr s => truthy s
  | VList items => match items with [] => false | _ :: _ => true end
  end.

Section FigurineFields.

(** What pydantic makes of a value that is neither a [str] nor [None]
    where a [str] is declared: the coerced string, or [None] where it
    refuses the value. *)
Variable coerce_str : value -> option pystr.

(** A field declared [str]. *)
Definition str_field (v : value) : option pystr :=
  match v with
  | VStr s => Some s
  | VNone => None
  | _ => coerce_str v
  end.

(** A field declared [Optional[str]]. *)
Definition optional_str_field (v : value) : option (option pystr) :=
  match v with
  | VNone => Some None
  | _ => option_map Some (str_field v)
  end.

Fixpoint str_items (items : list value) : option (list pystr) :=
  match items with
  | [] => Some []
  | v :: rest =>
      match str_field v, str_items rest with
      | Some s, Some l => Some (s :: l)
      | _, _ => None
      end
  end.

(** A field declared [Optional[List[str]]]. *)
Definition optional_list_field (v : value) : option (option (list pystr)) :=
  match v with
  | VNone => Some None
  | VList items => option_map Some (str_items items)
  | _ => None
  end.

Definition is_some {A} (o : option A) : bool :=
  match o with Some _ => true | None => false end.

(** [Figurine(...)] on the values [get_product] reads from a document:
    the four string-typed fields are validated as well as the three
    [ge=0] numbers. *)
Definition Figurine_of (name : value) (width_cm height_cm : float)
    (material : value) (price_usd : float) (images description : value)
    (customizable_base : bool) : outcome Figurine :=
  let errors :=
    check (is_some (str_field name)) "name"
    ++ check (ge0 width_cm) "width_cm"
    ++ check (ge0 height_cm) "height_cm"
    ++ check (is_some (str_field material)) "material"
    ++ check (ge0 price_usd) "price_usd"
    ++ check (is_some (optional_list_field images)) "images"
    ++ check (is_some (optional_str_field description)) "description" in
  match str_field name, str_field material, optional_list_field images,
        optional_str_field description, errors with
  | Some n, Some m, Some i, Some d, [] =>
      Returned {| name := n; width_cm := width_cm; height_cm := height_cm;
                  material := m; price_usd := price_usd; images := i;
                  description := d; customizable_base := customizable_base |}
  | _, _, _, _, _ => Raised (ValidationError "Figurine" errors)
  end.

End FigurineFields.

(** ** The document store *)

Module Doc.

(** A document of the figurine collection as the handlers read it: a
    dictionary in which each key of the schema is absent ([None]) or
    holds a value, which may itself be Python's [None] ([Some VNone]). *)
Record figurine := {
  name : option value;
  width_cm : option value;
  height_cm : option value;
  material : option value;
  price_usd : option value;
  images : option value;
  description : option value;
  customizable_base : option value
}.

End Doc.

Inductive body :=
| FigurineBody (d : Doc.figurine)
| OrderBody (o : Order).

Record document := { _id : N; content : body }.

Record database := {
  collection : string -> list document;   (* [db[name]], in insertion order *)
  next_id : N                             (* the next generated ObjectId *)
}.

Inductive db_op :=
| FindOne (coll : string)
| InsertOne (coll : string) (id : N).

(** The process-wide handle [db] ([None] when no store is configured)
    and the journal of the store operations issued so far. *)
Record world := { db : option database; journal : list db_op }.

Definition is_insert (op : db_op) : bool :=
  match op with InsertOne _ _ => true | FindOne _ => false end.

(** The keys of a document the handlers read; a document of another
    shape has none of them. *)
Definition get_figurine (doc : document) : Doc.figurine :=
  match content doc with
  | FigurineBody d => d
  | OrderBody _ =>
      {| Doc.name := None; Doc.width_cm := None; Doc.height_cm := None;
         Doc.material := None; Doc.price_usd := None; Doc.images := None;
         Doc.description := None; Doc.customizable_base := None |}
  end.

(** [doc.get(key, default)]: the default stands in for an absent key
    only, not for a stored [None]. *)
Definition get_or {A} (v : option A) (default : A) : A :=
  match v with Some a => a | None => default end.

(** [str(ObjectId)]: 24 lower-case hexadecimal digits. *)
Definition hex_digit (d : N) : N := (if d <? 10 then 48 + d else 87 + d)%N.

Fixpoint hex_digits (n : nat) (v : N) (acc : pystr) : pystr :=
  match n with
  | O => acc
  | S k => hex_digits k (v / 16)%N (hex_digit (v mod 16)%N :: acc)
  end.

Definition str_of_id (id : N) : pystr := hex_digits 24 id [].

Definition dump_str (s : option pystr) : value :=
  match s with Some s => VStr s | None => VNone end.

Definition dump_list (l : option (list pystr)) : value :=
  match l with Some l => VList (map VStr l) | None => VNone end.

(** [model_dump()] of the two models: every field becomes a key. *)
Inductive model := AFigurine (f : Figurine) | AnOrder (o : Order).

Definition model_dump (data : model) : body :=
  match data with
  | AFigurine f =>
      FigurineBody
        {| Doc.name := Some (VStr (name f));
           Doc.width_cm := Some (VFloat (width_cm f));
           Doc.height_cm := Some (VFloat (height_cm f));
           Doc.material := Some (VStr (material f));
           Doc.price_usd := Some (VFloat (price_usd f));
           Doc.images := Some (dump_list (images f));
           Doc.description := Some (dump_str (description f));
           Doc.customizable_base := Some (VBool (customizable_base f)) |}
  | AnOrder o => OrderBody o
  end.

(** [find_one(filter)]: the first matching document in natural order. *)
Definition find_first (matches : document -> bool) (docs : list document)
  : option document := find matches docs.

(** [find_one({}, sort=[("_id", 1)])]: the document with the least [_id]. *)
Fixpoint find_least_id (docs : list document) : option document :=
  match docs with
  | [] => None
  | d :: rest =>
      match find_least_id rest with
      | None => Some d
      | Some m => if (_id d <=? _id m)%N then Some d else Some m
      end
  end.

Definition is_str (n : pystr) (v : value) : bool :=
  match v with VStr s => PyStr.eqb s n | _ => false end.

(** The filter [{"name": n}]: the key holds the string [n], or a list
    with [n] among its items. *)
Definition name_is (n : pystr) (doc : document) : bool :=
  match Doc.name (get_figurine doc) with
  | Some (VList items) => existsb (is_str n) items
  | Some v => is_str n v
  | None => false
  end.

Definition insert_one (coll : string) (content : body) (d : database)
  : N * database :=
  let id := next_id d in
  (id,
   {| collection := fun c =>
        if String.eqb c coll
        then collection d c ++ [{| _id := id; content := content |}]
        else collection d c;
      next_id := N.succ id |}).

(** ** Handlers as computations over the world *)

Definition M (A : Type) : Type := world -> outcome A * world.

Definition ret {A} (a : A) : M A := fun w => (Returned a, w).

Definition raise {A} (e : exn) : M A := fun w => (Raised e, w).

Definition bind {A B} (m : M A) (k : A -> M B) : M B :=
  fun w =>
    match m w with
    | (Returned a, w') => k a w'
    | (Raised e, w') => (Raised e, w')
    end.

Definition lift {A} (r : outcome A) : M A := fun w => (r, w).

Declare Scope handler_scope.
Delimit Scope handler_scope with handler.

Notation "x <- m ;; k" := (bind m (fun x => k))
  (at level 100, m at next level, right associativity) : handler_scope.

Local Open Scope handler_scope.

(** The module-level name [db]. *)
Definition the_db : M (option database) := fun w => (Returned (db w), w).

Definition record (op : db_op) (w : world) : world :=
  {| db := db w; journal := journal w ++ [op] |}.

(** [db[coll].find_one(...)]; subscripting [None] is a [TypeError]. *)
Definition find_one (coll : string) (select : list document -> option document)
  : M (option document) :=
  fun w =>
    match db w with
    | None => (Raised TypeError, w)
    | Some d => (Returned (select (collection d coll)), record (FindOne coll) w)
    end.

(** Modelled from the spec: [create_document] of [database.py], which is
    not part of the sources.  The Persistence Gateway "wraps insertion of
    a typed record into a named collection, returning a generated
    identifier", and an unavailable store is a distinct mode of its own.
    The spec leaves the form of the identifier open; it is taken here to
    be [str] of the [_id] the document is stored under. *)
Definition create_document (collection_name : string) (data : model) : M pystr :=
  fun w =>
    match db w with
    | None => (Raised StoreUnavailable, w)
    | Some d =>
        let (id, d') := insert_one collection_name (model_dump data) d in
        (Returned (str_of_id id),
         record (InsertOne collection_name id) {| db := Some d'; journal := journal w |})
    end.

Definition figurine_name : pystr := lit "Michael Jackson Collectible Figurine".

Definition figurine_image : pystr :=
  lit "https://images.unsplash.com/photo-1520974697809-9343d26503bc?q=80&w=1200&auto=format&fit=crop".

Definition figurine_description : pystr :=
  lit "Premium detailed figurine inspired by the King of Pop. 10 cm wide, 30 cm tall, molded in durable plastic with a customizable nameplate on the base.".

(** The product both the seeding routine and the fallback of
    [get_product] build. *)
Definition static_figurine : outcome Figurine :=
  new_Figurine (Some figurine_name) 10.0%float 30.0%float (lit "Plastic") 49.99%float
    (Some [figurine_image]) (Some figurine_description) true.

(** [seed_figurine_product], run on startup. *)
Definition seed_figurine_product : M unit :=
  handle <- the_db ;;
  match handle with
  | None => ret tt
  | Some _ =>
      existing <- find_one "figurine" (find_first (name_is figurine_name)) ;;
      match existing with
      | Some _ => ret tt
      | None =>
          product <- lift static_figurine ;;
          _ <- create_document "figurine" (AFigurine product) ;;
          ret tt
      end
  end.

Section Product.

Variable float_of_str : pystr -> option float.
Variable coerce_str : value -> option pystr.

(** [GET /api/product]. *)
Definition get_product : M Figurine :=
  handle <- the_db ;;
  doc <- match handle with
         | Some _ => find_one "figurine" find_least_id
         | None => ret None
         end ;;
  match doc with
  | None => lift static_figurine
  | Some doc =>
      let d := get_figurine doc in
      let name := get_or (Doc.name d) VNone in
      width_cm <-
        lift (py_float float_of_str (get_or (Doc.width_cm d) (VFloat 10.0))) ;;
      height_cm <-
        lift (py_float float_of_str (get_or (Doc.height_cm d) (VFloat 30.0))) ;;
      let material := get_or (Doc.material d) (VStr (lit "Plastic")) in
      price_usd <-
        lift (py_float float_of_str (get_or (Doc.price_usd d) (VFloat 49.99))) ;;
      let images := get_or (Doc.images d) VNone in
      let description := get_or (Doc.description d) VNone in
      let customizable_base :=
        py_bool (get_or (Doc.customizable_base d) (VBool true)) in
      lift (Figurine_of coerce_str name width_cm height_cm material price_usd
              images description customizable_base)
  end.

End Product.

Record OrderIn := {
  in_custom_name : pystr;
  in_quantity : Z;
  in_customer_name : pystr;
  in_customer_email : pystr;
  in_shipping_address : pystr;
  in_notes : option pystr
}.

Record OrderOut := { order_id : pystr; out_total_usd : float }.

Definition name_detail : string := "Custom name must be 1-24 characters.".
Definition quantity_detail : string := "Quantity must be between 1 and 10.".

(** The two explicit checks at the top of [create_order]. *)
Definition name_rejected (payload : OrderIn) : bool :=
  (len (strip (in_custom_name payload)) =? 0)
  || (24 <? len (strip (in_custom_name payload))).

Definition quantity_rejected (payload : OrderIn) : bool :=
  (in_quantity payload <? 1) || (10 <? in_quantity payload).

Definition subtotal_of (unit_price : float) (quantity : Z) : float :=
  (unit_price * of_int quantity)%float.

Definition engraving_fee_of (custom_name : pystr) : float :=
  if truthy (strip custom_name) then 4.0%float else 0.0%float.

Definition shipping : float := 6.99%float.

Definition total_of (unit_price : float) (payload : OrderIn) : float :=
  round2 (subtotal_of unit_price (in_quantity payload)
          + engraving_fee_of (in_custom_name payload) + shipping)%float.

Section CreateOrder.

Variable validate_email : pystr -> option pystr.
Variable float_of_str : pystr -> option float.

(** [unit_price]: [float(...)] of the looked-up product's [price_usd],
    49.99 where the key or the product is missing. *)
Definition unit_price_of (product_doc : option document) : outcome float :=
  match product_doc with
  | Some doc =>
      py_float float_of_str
        (get_or (Doc.price_usd (get_figurine doc)) (VFloat 49.99))
  | None => Returned 49.99%float
  end.

(** [POST /api/order]. *)
Definition create_order (payload : OrderIn) : M OrderOut :=
  if name_rejected payload then raise (HTTPException 400 name_detail) else
  if quantity_rejected payload then raise (HTTPException 400 quantity_detail) else
  handle <- the_db ;;
  product_doc <- match handle with
                 | Some _ => find_one "figurine" find_least_id
                 | None => ret None
                 end ;;
  unit_price <- lift (unit_price_of product_doc) ;;
  let total := total_of unit_price payload in
  order <- lift (new_Order validate_email
                   (option_map (fun doc => str_of_id (_id doc)) product_doc)
                   (strip (in_custom_name payload))
                   (in_quantity payload)
                   (in_customer_name payload)
                   (in_customer_email payload)
                   (in_shipping_address payload)
                   unit_price total
                   (in_notes payload)) ;;
  handle <- the_db ;;
  match handle with
  | Some _ =>
      oid <- create_document "order" (AnOrder order) ;;
      ret {| order_id := oid; out_total_usd := total |}
  | None =>
      ret {| order_id := lit "demo-order"; out_total_usd := total |}
  end.

End CreateOrder.

(** The product record both endpoints look up: the earliest figurine
    document, if the store is there and has one. *)
Definition stored_product (w : world) : option document :=
  match db w with
  | Some d => find_least_id (collection d "figurine")
  | None => None
  end.

(** Number of figurine documents carrying the fixed product name. *)
Definition named_records (w : world) : nat :=
  match db w with
  | Some d => List.length (filter (name_is figurine_name) (collection d "figurine"))
  | None => O
  end.

(** The world after one run of the startup hook. *)
Definition startup (w : world) : world := snd (seed_figurine_product w).

(** The insertions recorded in the journal. *)
Definition writes (w : world) : list db_op := filter is_insert (journal w).

(** The world after the price lookup. *)
Definition after_lookup (w : world) : world :=
  match db w with
  | Some _ => record (FindOne "figurine") w
  | None => w
  end.

(** The [Order(...)] call of [create_order]. *)
Definition order_of (validate_email : pystr -> option pystr)
    (payload : OrderIn) (w : world) (unit_price : float) : outcome Order :=
  new_Order validate_email
    (option_map (fun doc => str_of_id (_id doc)) (stored_product w))
    (strip (in_custom_name payload))
    (in_quantity payload)
    (in_customer_name payload)
    (in_customer_email payload)
    (in_shipping_address payload)
    unit_price
    (total_of unit_price payload)
    (in_notes payload).

(** The [Figurine(...)] call of [get_product] on a stored document: the
    three [float(...)] conversions in the order of the arguments, then
    the constructor. *)
Definition read_figurine (float_of_str : pystr -> option float)
    (coerce_str : value -> option pystr) (doc : document) : outcome Figurine :=
  let d := get_figurine doc in
  match py_float float_of_str (get_or (Doc.width_cm d) (VFloat 10.0)) with
  | Raised e => Raised e
  | Returned width_cm =>
      match py_float float_of_str (get_or (Doc.height_cm d) (VFloat 30.0)) with
      | Raised e => Raised e
      | Returned height_cm =>
          match py_float float_of_str
                  (get_or (Doc.price_usd d) (VFloat 49.99)) with
          | Raised e => Raised e
          | Returned price_usd =>
              Figurine_of coerce_str (get_or (Doc.name d) VNone)
                width_cm height_cm
                (get_or (Doc.material d) (VStr (lit "Plastic")))
                price_usd
                (get_or (Doc.images d) VNone)
                (get_or (Doc.description d) VNone)
                (py_bool (get_or (Doc.customizable_base d) (VBool true)))
          end
      end
  end.

(** What [float(...)] makes of a stored value, as a relation. *)
Inductive reads_as (float_of_str : pystr -> option float)
  : value -> float -> Prop :=
| reads_float x : reads_as float_of_str (VFloat x) x
| reads_int n :
    is_infinity (of_int n) = false -> reads_as float_of_str (VInt n) (of_int n)
| reads_bool b : reads_as float_of_str (VBool b) (if b then 1 else 0)%float
| reads_str s x :
    float_of_str s = Some x -> reads_as float_of_str (VStr s) x.

(** The price on record: what the [price_usd] key of the stored product
    reads as, and 49.99 when there is no product or no such key. *)
Definition stored_price (float_of_str : pystr -> option float)
    (w : world) (p : float) : Prop :=
  match stored_product w with
  | Some doc =>
      match Doc.price_usd (get_figurine doc) with
      | Some v => reads_as float_of_str v p
      | None => p = 49.99%float
      end
  | None => p = 49.99%float
  end.

(** Stand-ins for running the handlers on concrete requests: a
    [float(...)] that reads strings of ASCII digits only, and a pydantic
    that coerces nothing to [str]. *)
Fixpoint digits_value (acc : Z) (s : pystr) : option Z :=
  match s with
  | [] => Some acc
  | c :: rest =>
      if ((48 <=? c) && (c <=? 57))%N
      then digits_value (10 * acc + Z.of_N (c - 48)) rest
      else None
  end.

Definition digits_only (s : pystr) : option float :=
  match s with
  | [] => None
  | _ :: _ => option_map of_int (digits_value 0 s)
  end.

Definition no_coercion (v : value) : option pystr := None.

(** A stand-in for the validator of the [email_validator] package, for
    running the handlers on concrete requests: it accepts the strings
    with exactly one [@], neither first nor last, and returns them as
    they are. *)
Definition single_at_sign (s : pystr) : option pystr :=
  match s, rev s with
  | first :: _, last :: _ =>
      if (Nat.eqb (List.length (filter (N.eqb 64) s)) 1)
         && negb (N.eqb first 64) && negb (N.eqb last 64)
      then Some s else None
  | _, _ => None
  end.

(** Sign class of a binary64 value: zeros, positive finite numbers and
    positive infinity. *)
Definition sf_nonneg (x : spec_float) : bool :=
  match x with
  | S754_zero _ => true
  | S754_infinity s => negb s
  | S754_nan => false
  | S754_finite s _ _ => negb s
  end.

(** ** Sample requests and worlds *)

Definition offline : world := {| db := None; journal := [] |}.

Definition empty_store : world :=
  {| db := Some {| collection := fun _ => []; next_id := 1 |}; journal := [] |}.

(** A store whose only figurine is priced at 20.0. *)
Definition priced_store : world :=
  {| db := Some
       {| collection := fun c =>
            if String.eqb c "figurine"
            then [{| _id := 1;
                     content :=
                       FigurineBody
                         {| Doc.name := Some (VStr figurine_name);
                            Doc.width_cm := Some (VFloat 10.0);
                            Doc.height_cm := Some (VFloat 30.0);
                            Doc.material := Some (VStr (lit "Plastic"));
                            Doc.price_usd := Some (VFloat 20.0);
                            Doc.images := None;
                            Doc.description := None;
                            Doc.customizable_base := Some (VBool true) |} |}]
            else [];
          next_id := 2 |};
     journal := [] |}.

Definition order_for (custom_name : string) (quantity : Z)
    (customer_email shipping_address : string) : OrderIn :=
  {| in_custom_name := lit custom_name; in_quantity := quantity;
     in_customer_name := lit "A. Fan"; in_customer_email := lit customer_email;
     in_shipping_address := lit shipping_address; in_notes := None |}.

Definition sample_order : OrderIn :=
  order_for " Billie Jean " 3 "fan@example.com" "1 Main Street".

Definition letters24 : string := "abcdefghijklmnopqrstuvwx".
Definition letters25 : string := "abcdefghijklmnopqrstuvwxy".

(** The payload with another custom name. *)
Definition with_custom_name (payload : OrderIn) (custom_name : pystr) : OrderIn :=
  {| in_custom_name := custom_name; in_quantity := in_quantity payload;
     in_customer_name := in_customer_name payload;
     in_customer_email := in_customer_email payload;
     in_shipping_address := in_shipping_address payload;
     in_notes := in_notes payload |}.

(** ** The diagnostic endpoint ([GET /test]) *)

(** What a call into the driver or the environment gives: a value, or an
    exception with its [str(e)]. *)
Inductive attempt (A : Type) :=
| Got (a : A)
| Threw (message : pystr).

Arguments Got {A} a.
Arguments Threw {A} message.

Module Diagnostics.

Local Abbreviation store := database.

Definition tick : pystr := [9989%N].            (* U+2705 *)
Definition cross : pystr := [10060%N].          (* U+274C *)
Definition warning : pystr := [9888%N; 65039%N]. (* U+26A0 U+FE0F *)

Record response := {
  backend : pystr;
  database : pystr;
  database_url : option pystr;
  database_name : option pystr;
  connection_status : pystr;
  collections : list pystr
}.

Definition set_database (v : pystr) (r : response) : response :=
  {| backend := backend r; database := v; database_url := database_url r;
     database_name := database_name r;
     connection_status := connection_status r; collections := collections r |}.

Definition set_database_url (v : pystr) (r : response) : response :=
  {| backend := backend r; database := database r; database_url := Some v;
     database_name := database_name r;
     connection_status := connection_status r; collections := collections r |}.

Definition set_database_name (v : pystr) (r : response) : response :=
  {| backend := backend r; database := database r;
     database_url := database_url r; database_name := Some v;
     connection_status := connection_status r; collections := collections r |}.

Definition set_connection_status (v : pystr) (r : response) : response :=
  {| backend := backend r; database := database r;
     database_url := database_url r; database_name := database_name r;
     connection_status := v; collections := collections r |}.

Definition set_collections (v : list pystr) (r : response) : response :=
  {| backend := backend r; database := database r;
     database_url := database_url r; database_name := database_name r;
     connection_status := connection_status r; collections := v |}.

(** The dictionary [test_database] starts from. *)
Definition initial : response :=
  {| backend := tick ++ lit " Running";
     database := cross ++ lit " Not Available";
     database_url := None;
     database_name := None;
     connection_status := lit "Not Connected";
     collections := [] |}.

(** ["Set"] or ["Not Set"] for an environment variable: unset and empty
    values are both false. *)
Definition env_flag (v : option pystr) : pystr :=
  match v with
  | Some s => if truthy s then tick ++ lit " Set" else cross ++ lit " Not Set"
  | None => cross ++ lit " Not Set"
  end.

Section Endpoint.

(** [getattr(db, 'name', default)]: the attribute, [None] when the
    handle has none, or whatever reading it raises. *)
Variable getattr_name : store -> attempt (option pystr).

(** [db.list_collection_names()]. *)
Variable list_collection_names : store -> attempt (list pystr).

(** [os.getenv]. *)
Variable getenv : string -> option pystr.

(** The two nested [try] blocks of [test_database]. *)
Definition probe (handle : option store) (r : response) : response :=
  match handle with
  | Some d =>
      let r := set_database (tick ++ lit " Available") r in
      let r := set_database_url (tick ++ lit " Configured") r in
      match getattr_name d with
      | Threw message =>
          set_database (cross ++ lit " Error: " ++ firstn 50 message) r
      | Got attribute =>
          let r := set_database_name
                     (get_or attribute (tick ++ lit " Connected")) r in
          let r := set_connection_status (lit "Connected") r in
          match list_collection_names d with
          | Got names =>
              let r := set_collections (firstn 10 names) r in
              set_database (tick ++ lit " Connected & Working") r
          | Threw message =>
              set_database
                (warning ++ lit "  Connected but Error: " ++ firstn 50 message) r
          end
      end
  | None => set_database (warning ++ lit "  Available but not initialized") r
  end.

(** [GET /test]. *)
Definition test_database : M response :=
  handle <- the_db ;;
  let r := probe handle initial in
  let r := set_database_url (env_flag (getenv "DATABASE_URL")) r in
  let r := set_database_name (env_flag (getenv "DATABASE_NAME")) r in
  ret r.

End Endpoint.

End Diagnostics.

(** The figurine the hook stores. *)
Definition seeded_document (id : N) : document :=
  {| _id := id;
     content :=
       model_dump
         (AFigurine
            {| name := figurine_name; width_cm := 10.0; height_cm := 30.0;
               material := lit "Plastic"; price_usd := 49.99;
               images := Some [figurine_image];
               description := Some figurine_description;
               customizable_base := true |}) |}.

(** A store holding the given figurine documents and nothing else. *)
Definition figurine_store (docs : list document) : world :=
  {| db := Some {| collection := fun c =>
                     if String.eqb c "figurine" then docs else [];
                   next_id := 9 |};
     journal := [] |}.

(** A figurine document with the given [name] key and no other. *)
Definition bare_document (n : option value) : document :=
  {| _id := 3;
     content :=
       FigurineBody
         {| Doc.name := n; Doc.width_cm := None; Doc.height_cm := None;
            Doc.material := None; Doc.price_usd := None; Doc.images := None;
            Doc.description := None; Doc.customizable_base := None |} |}.

(** A figurine document whose [price_usd] is a stored [None]. *)
Definition unpriced_document : document :=
  {| _id := 4;
     content :=
       FigurineBody
         {| Doc.name := None; Doc.width_cm := None; Doc.height_cm := None;
            Doc.material := None; Doc.price_usd := Some VNone;
            Doc.images := None; Doc.description := None;
            Doc.customizable_base := None |} |}.

(** The characters [0-9a-f]. *)
Definition hex_char (c : N) : bool :=
  ((48 <=? c) && (c <=? 57) || (97 <=? c) && (c <=? 102))%N.

(** * Properties *)

(** ** Signs through binary64 rounding

    The [ge=0] constraint on [total_usd] holds whenever it holds on the
    unit price: multiplying by a positive quantity, adding the two
    positive charges and rounding to cents all stay in the non-negative
    class. *)

Lemma ge0_spec x : ge0 x = sf_nonneg (Prim2SF x).
Proof.
  unfold ge0. rewrite FloatAxioms.leb_spec.
  replace (Prim2SF 0) with (S754_zero false) by reflexivity.
  destruct (Prim2SF x) as [s|s| |s m e]; try destruct s; reflexivity.
Qed.

Lemma iter_pos_inv {A} (P : A -> Prop) (f : A -> A) :
  (forall x, P x -> P (f x)) -> forall n x, P x -> P (iter_pos f n x).
Proof.
  intros Hf. induction n as [n IH|n IH|]; intros x Hx; simpl; auto.
Qed.

Lemma shr_1_nonneg mrs : 0 <= shr_m mrs -> 0 <= shr_m (shr_1 mrs).
Proof.
  destruct mrs as [m r s]. simpl. intros H.
  destruct m as [|p|p]; [| destruct p | lia]; simpl; lia.
Qed.

Lemma shr_nonneg mrs e n : 0 <= shr_m mrs -> 0 <= shr_m (fst (shr mrs e n)).
Proof.
  intros H. destruct n as [|p|p]; simpl; auto.
  apply (iter_pos_inv (fun r => 0 <= shr_m r)); auto using shr_1_nonneg.
Qed.

Lemma shr_fexp_nonneg m e l : 0 <= m -> 0 <= shr_m (fst (shr_fexp prec emax m e l)).
Proof.
  intros H. unfold shr_fexp. apply shr_nonneg.
  destruct l as [|[]]; simpl; assumption.
Qed.

Lemma round_nearest_even_nonneg m l : 0 <= m -> 0 <= round_nearest_even m l.
Proof.
  intros H. destruct l as [|[]]; simpl; try lia. destruct (Z.even m); lia.
Qed.

Lemma binary_round_aux_nonneg mx ex lx :
  0 <= mx -> sf_nonneg (binary_round_aux prec emax false mx ex lx) = true.
Proof.
  intros H. unfold binary_round_aux.
  pose proof (shr_fexp_nonneg mx ex lx H) as H1.
  destruct (shr_fexp prec emax mx ex lx) as [mrs' e']. simpl in H1.
  pose proof (shr_fexp_nonneg _ e' loc_Exact
                (round_nearest_even_nonneg _ (loc_of_shr_record mrs') H1)) as H2.
  destruct (shr_fexp prec emax _ e' loc_Exact) as [mrs'' e'']. simpl in H2.
  destruct (shr_m mrs'') as [|p|p]; try reflexivity; [| lia].
  destruct (e'' <=? emax - prec); reflexivity.
Qed.

Lemma binary_round_nonneg m e : sf_nonneg (binary_round prec emax false m e) = true.
Proof.
  unfold binary_round. destruct (shl_align _ _ _) as [mz ez].
  apply binary_round_aux_nonneg. lia.
Qed.

Lemma binary_normalize_nonneg m e : 0 <= m -> sf_nonneg (binary_normalize prec emax m e false) = true.
Proof.
  intros H. destruct m as [|p|p]; simpl; try reflexivity; [apply binary_round_nonneg | lia].
Qed.

Lemma SFmul_nonneg x m e :
  sf_nonneg x = true ->
  sf_nonneg (SFmul prec emax x (S754_finite false m e)) = true.
Proof.
  destruct x as [s|s| |s mx ex]; simpl; try discriminate.
  - reflexivity.
  - now rewrite xorb_false_r.
  - destruct s; try discriminate. intros _.
    apply binary_round_aux_nonneg. lia.
Qed.

Lemma SFadd_nonneg x m e :
  sf_nonneg x = true ->
  sf_nonneg (SFadd prec emax x (S754_finite false m e)) = true.
Proof.
  destruct x as [s|s| |s mx ex]; simpl; try discriminate; auto.
  destruct s; try discriminate. intros _.
  apply binary_normalize_nonneg. simpl. lia.
Qed.

Lemma SFdiv_nonneg n d :
  sf_nonneg (SFdiv prec emax (S754_finite false n 0) (S754_finite false d 0)) = true.
Proof.
  unfold SFdiv, SFdiv_core_binary.
  set (m' := match _ with Z0 => _ | Zpos _ => _ | Zneg _ => _ end).
  assert (Hm : 0 <= m').
  { subst m'. destruct (0 - 0 - _) eqn:E; try lia. apply Z.shiftl_nonneg. lia. }
  pose proof (Z_div_mod m' (Zpos d) eq_refl) as Hd.
  destruct (Z.div_eucl m' (Zpos d)) as [q r].
  apply binary_round_aux_nonneg. nia.
Qed.

Lemma SFldexp_nonneg x e :
  sf_nonneg x = true -> sf_nonneg (SFldexp prec emax x e) = true.
Proof.
  destruct x as [s|s| |s mx ex]; simpl; auto.
  destruct s; try discriminate. intros _. apply binary_round_nonneg.
Qed.

Lemma SF2Prim_nonneg x : sf_nonneg x = true -> ge0 (SF2Prim x) = true.
Proof.
  destruct x as [s|s| |s m e]; simpl; try discriminate.
  - destruct s; reflexivity.
  - destruct s; try discriminate. reflexivity.
  - destruct s; try discriminate. intros _.
    rewrite ge0_spec. unfold Z.ldexp.
    rewrite ldshiftexp_spec, of_uint63_spec.
    apply SFldexp_nonneg, binary_normalize_nonneg.
    apply Uint63.to_Z_bounded.
Qed.

Lemma round2_nonneg x : ge0 x = true -> ge0 (round2 x) = true.
Proof.
  intros H. unfold round2.
  pose proof H as H'. rewrite ge0_spec in H'.
  destruct (Prim2SF x) as [s|s| |s m e]; auto.
  destruct s; try discriminate.
  match goal with |- context [match ?h with Z0 => _ | Zpos _ => _ | Zneg _ => _ end] =>
    destruct h as [|n|n] end; try reflexivity.
  apply SF2Prim_nonneg, SFdiv_nonneg.
Qed.

Lemma of_int_quantity q :
  1 <= q <= 10 -> exists m e, Prim2SF (of_int q) = S754_finite false m e.
Proof.
  intros H.
  assert (C : q = 1 \/ q = 2 \/ q = 3 \/ q = 4 \/ q = 5
              \/ q = 6 \/ q = 7 \/ q = 8 \/ q = 9 \/ q = 10) by lia.
  repeat (destruct C as [C | C]; [subst q; vm_compute; eauto |]).
  subst q; vm_compute; eauto.
Qed.

Lemma total_nonneg p q :
  ge0 p = true -> 1 <= q <= 10 ->
  ge0 (round2 (p * of_int q + 4.0 + 6.99)%float) = true.
Proof.
  intros Hp Hq. apply round2_nonneg.
  destruct (of_int_quantity q Hq) as (m & e & Eq).
  assert (E4 : exists m e, Prim2SF 4.0%float = S754_finite false m e)
    by (vm_compute; eauto).
  assert (E6 : exists m e, Prim2SF 6.99%float = S754_finite false m e)
    by (vm_compute; eauto).
  destruct E4 as (m4 & e4 & E4). destruct E6 as (m6 & e6 & E6).
  rewrite ge0_spec in *.
  rewrite !add_spec, mul_spec, Eq, E4, E6.
  unfold SF64add, SF64mul.
  now apply SFadd_nonneg, SFadd_nonneg, SFmul_nonneg.
Qed.

(** ** The explicit checks of [create_order] *)

Lemma len_nonneg s : 0 <= len s.
Proof. unfold len. lia. Qed.

Lemma name_rejected_false payload :
  name_rejected payload = false <->
  1 <= len (strip (in_custom_name payload)) <= 24.
Proof.
  unfold name_rejected. pose proof (len_nonneg (strip (in_custom_name payload))).
  rewrite orb_false_iff, Z.eqb_neq, Z.ltb_ge. lia.
Qed.

Lemma name_rejected_true payload :
  name_rejected payload = true <->
  len (strip (in_custom_name payload)) = 0
  \/ 24 < len (strip (in_custom_name payload)).
Proof.
  unfold name_rejected. now rewrite orb_true_iff, Z.eqb_eq, Z.ltb_lt.
Qed.

Lemma quantity_rejected_false payload :
  quantity_rejected payload = false <-> 1 <= in_quantity payload <= 10.
Proof.
  unfold quantity_rejected. rewrite orb_false_iff, !Z.ltb_ge. lia.
Qed.

Lemma quantity_rejected_true payload :
  quantity_rejected payload = true <->
  in_quantity payload < 1 \/ 10 < in_quantity payload.
Proof.
  unfold quantity_rejected. now rewrite orb_true_iff, !Z.ltb_lt.
Qed.

Lemma truthy_len s : 1 <= len s -> truthy s = true.
Proof. destruct s; [unfold len; simpl; lia | reflexivity]. Qed.

Lemma details_differ : name_detail <> quantity_detail.
Proof. discriminate. Qed.

(** ** Reading the price on record *)

Section Prices.

Variable float_of_str : pystr -> option float.

Lemma py_float_reads v p :
  py_float float_of_str v = Returned p <-> reads_as float_of_str v p.
Proof.
  split.
  - destruct v as [| b | n | x | s | items]; cbn [py_float]; try discriminate.
    + intros H. inversion H. constructor.
    + destruct (is_infinity (of_int n)) eqn:E; [discriminate |].
      intros H. inversion H. now constructor.
    + intros H. inversion H. constructor.
    + destruct (float_of_str s) as [x|] eqn:E; [| discriminate].
      intros H. inversion H; subst. now constructor.
  - intros H. destruct H as [x | n Hn | b | s x Hs]; cbn [py_float].
    + reflexivity.
    + now rewrite Hn.
    + reflexivity.
    + now rewrite Hs.
Qed.

Lemma py_float_raises v e :
  py_float float_of_str v = Raised e ->
  e = TypeError \/ e = ValueError \/ e = OverflowError.
Proof.
  destruct v as [| b | n | x | s | items]; cbn [py_float]; try discriminate.
  - intros H. inversion H. tauto.
  - destruct (is_infinity (of_int n)); [| discriminate].
    intros H. inversion H. tauto.
  - destruct (float_of_str s); [discriminate |].
    intros H. inversion H. tauto.
  - intros H. inversion H. tauto.
Qed.

(** The unit price [create_order] computes is the price on record. *)
Lemma unit_price_reads w p :
  unit_price_of float_of_str (stored_product w) = Returned p
  <-> stored_price float_of_str w p.
Proof.
  unfold unit_price_of, stored_price.
  destruct (stored_product w) as [doc|].
  - destruct (Doc.price_usd (get_figurine doc)) as [v|]; cbn [get_or].
    + apply py_float_reads.
    + cbn. split; intros H; [inversion H | subst]; reflexivity.
  - split; intros H; [inversion H | subst]; reflexivity.
Qed.

Lemma unit_price_raises w e :
  unit_price_of float_of_str (stored_product w) = Raised e ->
  e = TypeError \/ e = ValueError \/ e = OverflowError.
Proof.
  unfold unit_price_of. destruct (stored_product w) as [doc|].
  - apply py_float_raises.
  - discriminate.
Qed.

End Prices.

(** ** Running [create_order] past the explicit checks *)

Section Orders.

Variable validate_email : pystr -> option pystr.
Variable float_of_str : pystr -> option float.

Lemma create_order_rejects_name payload w :
  name_rejected payload = true ->
  create_order validate_email float_of_str payload w
  = (Raised (HTTPException 400 name_detail), w).
Proof. intros H. unfold create_order. now rewrite H. Qed.

Lemma create_order_rejects_quantity payload w :
  name_rejected payload = false -> quantity_rejected payload = true ->
  create_order validate_email float_of_str payload w
  = (Raised (HTTPException 400 quantity_detail), w).
Proof. intros Hn Hq. unfold create_order. now rewrite Hn, Hq. Qed.

Lemma create_order_checked payload w :
  name_rejected payload = false -> quantity_rejected payload = false ->
  create_order validate_email float_of_str payload w =
  match unit_price_of float_of_str (stored_product w) with
  | Raised e => (Raised e, after_lookup w)
  | Returned unit_price =>
      match order_of validate_email payload w unit_price with
      | Raised e => (Raised e, after_lookup w)
      | Returned order =>
          let total := total_of unit_price payload in
          match db w with
          | Some d =>
              let (id, d') := insert_one "order" (OrderBody order) d in
              (Returned {| order_id := str_of_id id; out_total_usd := total |},
               record (InsertOne "order" id)
                 {| db := Some d'; journal := journal (after_lookup w) |})
          | None =>
              (Returned {| order_id := lit "demo-order";
                           out_total_usd := total |}, w)
          end
      end
  end.
Proof.
  intros Hn Hq. unfold create_order, order_of, stored_product, after_lookup.
  rewrite Hn, Hq.
  destruct w as [[d|] j];
    cbv beta iota delta [bind the_db find_one lift ret create_document db
                         journal record model_dump];
    destruct (unit_price_of _ _); try reflexivity;
    destruct (new_Order _ _ _ _ _ _ _ _ _ _); reflexivity.
Qed.

Lemma new_Order_accepts pid cname q cust email e addr price total notes :
  1 <= len cname <= 24 -> 1 <= q <= 10 -> validate_email email = Some e ->
  8 <= len addr -> ge0 price = true -> ge0 total = true ->
  new_Order validate_email pid cname q cust email addr price total notes
  = Returned {| product_id := pid; custom_name := cname; quantity := q;
                customer_name := cust; customer_email := e;
                shipping_address := addr; unit_price_usd := price;
                total_usd := total; notes := notes |}.
Proof.
  intros Hn Hq He Ha Hp Ht. unfold new_Order, Order_errors. rewrite He, Hp, Ht.
  replace (1 <=? len cname) with true by (symmetry; apply Z.leb_le; lia).
  replace (len cname <=? 24) with true by (symmetry; apply Z.leb_le; lia).
  replace (1 <=? q) with true by (symmetry; apply Z.leb_le; lia).
  replace (q <=? 10) with true by (symmetry; apply Z.leb_le; lia).
  replace (8 <=? len addr) with true by (symmetry; apply Z.leb_le; lia).
  reflexivity.
Qed.

Lemma new_Order_raised pid cname q cust email addr price total notes e :
  new_Order validate_email pid cname q cust email addr price total notes
  = Raised e ->
  e = ValidationError "Order"
        (Order_errors validate_email cname q email addr price total).
Proof.
  unfold new_Order.
  destruct (validate_email email) eqn:Ee;
    [destruct (Order_errors _ _ _ _ _ _ _) eqn:El |];
    intros H; inversion H; reflexivity.
Qed.

Lemma new_Order_invalid_email pid cname q cust email addr price total notes :
  validate_email email = None ->
  new_Order validate_email pid cname q cust email addr price total notes
  = Raised (ValidationError "Order"
              (Order_errors validate_email cname q email addr price total))
  /\ In "customer_email"%string
        (Order_errors validate_email cname q email addr price total).
Proof.
  intros He. split.
  - unfold new_Order. now rewrite He.
  - unfold Order_errors. rewrite He. rewrite !in_app_iff. simpl. tauto.
Qed.

Lemma new_Order_short_address pid cname q cust email addr price total notes :
  len addr < 8 ->
  new_Order validate_email pid cname q cust email addr price total notes
  = Raised (ValidationError "Order"
              (Order_errors validate_email cname q email addr price total))
  /\ In "shipping_address"%string
        (Order_errors validate_email cname q email addr price total).
Proof.
  intros Ha.
  assert (Hin : In "shipping_address"%string
                  (Order_errors validate_email cname q email addr price total)).
  { unfold Order_errors.
    replace (8 <=? len addr) with false by (symmetry; apply Z.leb_gt; lia).
    rewrite !in_app_iff. simpl. tauto. }
  split; [| exact Hin].
  unfold new_Order.
  destruct (Order_errors _ _ _ _ _ _ _); [destruct Hin |].
  destruct (validate_email email); reflexivity.
Qed.

Lemma Order_errors_long_address cname q email addr price total :
  8 <= len addr ->
  ~ In "shipping_address"%string
      (Order_errors validate_email cname q email addr price total).
Proof.
  intros Ha. unfold Order_errors.
  replace (8 <=? len addr) with true by (symmetry; apply Z.leb_le; lia).
  rewrite !in_app_iff. unfold check.
  repeat match goal with |- context [if ?b then _ else _] => destruct b end;
    simpl; intuition discriminate.
Qed.

Lemma total_of_checked price payload :
  name_rejected payload = false ->
  total_of price payload
  = round2 (price * of_int (in_quantity payload) + 4.0 + 6.99)%float.
Proof.
  intros Hn. apply name_rejected_false in Hn.
  unfold total_of, subtotal_of, engraving_fee_of, shipping.
  rewrite truthy_len by lia. reflexivity.
Qed.

End Orders.
(** ** The order endpoint *)

Section OrderEndpoint.

Variable validate_email : pystr -> option pystr.
Variable float_of_str : pystr -> option float.

Lemma create_order_accepts payload w e p :
  1 <= len (strip (in_custom_name payload)) <= 24 ->
  1 <= in_quantity payload <= 10 ->
  validate_email (in_customer_email payload) = Some e ->
  8 <= len (in_shipping_address payload) ->
  ge0 p = true ->
  exists order,
    order_of validate_email payload w p = Returned order
    /\ total_usd order
       = round2 (p * of_int (in_quantity payload) + 4.0 + 6.99)%float.
Proof.
  intros Hn Hq He Ha Hp. unfold order_of.
  rewrite total_of_checked by now apply name_rejected_false.
  erewrite new_Order_accepts; eauto using total_nonneg.
Qed.

(** C1: a payload that passes validation (trimmed name of 1 to 24
    characters, quantity in [1,10], valid e-mail, address of at least 8
    characters) is answered with
    [total_usd = round(p*q + 4.0 + 6.99, 2)], where [p] is the price on
    record: what the [price_usd] key of the stored product reads as, or
    49.99 when there is no product record (or no such key), and is
    non-negative as the product schema requires. *)
Theorem create_order_total payload w e p :
  1 <= len (strip (in_custom_name payload)) <= 24 ->
  1 <= in_quantity payload <= 10 ->
  validate_email (in_customer_email payload) = Some e ->
  8 <= len (in_shipping_address payload) ->
  stored_price float_of_str w p ->
  ge0 p = true ->
  exists id w',
    create_order validate_email float_of_str payload w
    = (Returned
         {| order_id := id;
            out_total_usd :=
              round2 (p * of_int (in_quantity payload) + 4.0 + 6.99)%float |},
       w').
Proof.
  intros Hn Hq He Ha Hs Hp. apply unit_price_reads in Hs.
  destruct (create_order_accepts payload w e p Hn Hq He Ha Hp) as (order & Ho & _).
  rewrite create_order_checked, Hs, Ho
    by (try apply name_rejected_false; try apply quantity_rejected_false; lia).
  rewrite total_of_checked by now apply name_rejected_false.
  destruct (db w) as [d|].
  - destruct (insert_one "order" (OrderBody order) d) as [id d']. eauto.
  - eauto.
Qed.

(** C2: once the trimmed custom name has 1 to 24 characters the
    engraving fee is 4.0, never 0.0, so the total always carries it. *)
Theorem engraving_fee_unconditional payload :
  1 <= len (strip (in_custom_name payload)) <= 24 ->
  engraving_fee_of (in_custom_name payload) = 4.0%float
  /\ engraving_fee_of (in_custom_name payload) <> 0.0%float
  /\ forall price,
       total_of price payload
       = round2 (price * of_int (in_quantity payload) + 4.0 + 6.99)%float.
Proof.
  intros Hn.
  assert (E : engraving_fee_of (in_custom_name payload) = 4.0%float).
  { unfold engraving_fee_of. now rewrite truthy_len by lia. }
  split; [exact E | split].
  - rewrite E. intros H.
    assert (F : PrimFloat.eqb 4.0 0.0 = PrimFloat.eqb 0.0 0.0) by now rewrite H.
    vm_compute in F. discriminate.
  - intros price. apply total_of_checked. now apply name_rejected_false.
Qed.

(** C5: without a store ([db] is [None]) a valid payload is answered
    with the identifier "demo-order" and the total at the default unit
    price 49.99; nothing is raised and the world is left as it was. *)
Theorem create_order_offline payload w e :
  db w = None ->
  1 <= len (strip (in_custom_name payload)) <= 24 ->
  1 <= in_quantity payload <= 10 ->
  validate_email (in_customer_email payload) = Some e ->
  8 <= len (in_shipping_address payload) ->
  create_order validate_email float_of_str payload w
  = (Returned
       {| order_id := lit "demo-order";
          out_total_usd :=
            round2 (49.99 * of_int (in_quantity payload) + 4.0 + 6.99)%float |},
     w).
Proof.
  intros Hdb Hn Hq He Ha.
  assert (Hs : stored_product w = None) by (unfold stored_product; now rewrite Hdb).
  assert (Hp : ge0 49.99 = true) by reflexivity.
  destruct (create_order_accepts payload w e _ Hn Hq He Ha Hp) as (order & Ho & _).
  rewrite create_order_checked
    by (try apply name_rejected_false; try apply quantity_rejected_false; lia).
  rewrite Hs. cbn [unit_price_of]. rewrite Ho.
  rewrite total_of_checked by now apply name_rejected_false.
  rewrite Hdb. reflexivity.
Qed.

Lemma create_order_not_http payload w detail :
  name_rejected payload = false -> quantity_rejected payload = false ->
  fst (create_order validate_email float_of_str payload w)
  <> Raised (HTTPException 400 detail).
Proof.
  intros Hn Hq. rewrite create_order_checked by assumption.
  destruct (unit_price_of float_of_str (stored_product w)) as [p|e] eqn:Ep.
  - destruct (order_of validate_email payload w p) as [order|e] eqn:Eo.
    + destruct (db w) as [d|]; [destruct (insert_one _ _ d) |]; discriminate.
    + apply new_Order_raised in Eo. subst e. discriminate.
  - apply unit_price_raises in Ep. cbn [fst].
    destruct Ep as [E | [E | E]]; subst e; discriminate.
Qed.

(** C8: a trimmed custom name of length 0 or above 24 is refused with
    status 400 and the custom-name reason; a trimmed length of 1 to 24
    (the bounds included) is never refused with that reason, which
    differs from the reason of the quantity rule. *)
Theorem custom_name_rule payload w :
  let n := len (strip (in_custom_name payload)) in
  let r := fst (create_order validate_email float_of_str payload w) in
  (n = 0 \/ 24 < n ->
   r = Raised (HTTPException 400 name_detail)
   /\ client_error (http_status r) = true)
  /\ (1 <= n <= 24 -> r <> Raised (HTTPException 400 name_detail))
  /\ name_detail <> quantity_detail.
Proof.
  cbv zeta. split; [| split].
  - intros H. apply name_rejected_true in H.
    rewrite create_order_rejects_name by assumption. split; reflexivity.
  - intros H. apply name_rejected_false in H.
    destruct (quantity_rejected payload) eqn:Hq.
    + rewrite create_order_rejects_quantity by assumption. discriminate.
    + now apply create_order_not_http.
  - exact details_differ.
Qed.

(** C9: a quantity below 1 or above 10 is refused with status 400, with
    the quantity reason whenever the custom name is in order; a quantity
    of 1 to 10 (the bounds included) is never refused with that reason,
    which differs from the reason of the custom-name rule. *)
Theorem quantity_rule payload w :
  let q := in_quantity payload in
  let r := fst (create_order validate_email float_of_str payload w) in
  (q < 1 \/ 10 < q ->
   client_error (http_status r) = true
   /\ exists detail,
        r = Raised (HTTPException 400 detail)
        /\ (1 <= len (strip (in_custom_name payload)) <= 24 ->
            detail = quantity_detail))
  /\ (1 <= q <= 10 -> r <> Raised (HTTPException 400 quantity_detail))
  /\ quantity_detail <> name_detail.
Proof.
  cbv zeta. split; [| split].
  - intros H. apply quantity_rejected_true in H.
    destruct (name_rejected payload) eqn:Hn.
    + rewrite create_order_rejects_name by assumption.
      split; [reflexivity |]. exists name_detail. split; [reflexivity |].
      intros Hlen. apply name_rejected_false in Hlen. congruence.
    + rewrite create_order_rejects_quantity by assumption.
      split; [reflexivity |]. exists quantity_detail. split; reflexivity.
  - intros H. apply quantity_rejected_false in H.
    destruct (name_rejected payload) eqn:Hn.
    + rewrite create_order_rejects_name by assumption. discriminate.
    + now apply create_order_not_http.
  - intros E. now apply details_differ.
Qed.

(** C10: a payload that breaks an explicit rule is refused before the
    store is touched: the world, journal of store operations included,
    is the one the handler started from; and when both rules are broken
    the reason given is the custom-name one. *)
Theorem rejection_precedes_store payload w :
  (len (strip (in_custom_name payload)) = 0
   \/ 24 < len (strip (in_custom_name payload)))
  \/ (in_quantity payload < 1 \/ 10 < in_quantity payload) ->
  exists detail,
    create_order validate_email float_of_str payload w
    = (Raised (HTTPException 400 detail), w)
    /\ (len (strip (in_custom_name payload)) = 0
        \/ 24 < len (strip (in_custom_name payload)) ->
        detail = name_detail)
    /\ (1 <= len (strip (in_custom_name payload)) <= 24 ->
        detail = quantity_detail).
Proof.
  intros H. destruct (name_rejected payload) eqn:Hn.
  - exists name_detail. split; [now apply create_order_rejects_name |].
    split; [reflexivity |]. intros Hlen. apply name_rejected_false in Hlen.
    congruence.
  - assert (Hq : quantity_rejected payload = true).
    { apply quantity_rejected_true. destruct H as [H | H]; [| exact H].
      apply name_rejected_true in H. congruence. }
    exists quantity_detail. split; [now apply create_order_rejects_quantity |].
    split; [| reflexivity]. intros Hlen. apply name_rejected_true in Hlen.
    congruence.
Qed.

Lemma create_order_unhandled payload w :
  name_rejected payload = false -> quantity_rejected payload = false ->
  (forall p, unit_price_of float_of_str (stored_product w) = Returned p ->
             exists e, order_of validate_email payload w p = Raised e) ->
  http_status (fst (create_order validate_email float_of_str payload w)) = 500
  /\ client_error
       (http_status (fst (create_order validate_email float_of_str payload w)))
     = false
  /\ db (snd (create_order validate_email float_of_str payload w)) = db w.
Proof.
  intros Hn Hq Hfail. rewrite create_order_checked by assumption.
  assert (Hdb : db (after_lookup w) = db w)
    by (unfold after_lookup; destruct w as [[d|] j]; reflexivity).
  destruct (unit_price_of float_of_str (stored_product w)) as [p|e] eqn:Ep.
  - destruct (Hfail p eq_refl) as (e & Ho). rewrite Ho.
    apply new_Order_raised in Ho. subst e. now repeat split.
  - apply unit_price_raises in Ep. cbn [fst snd].
    destruct Ep as [E | [E | E]]; subst e; now repeat split.
Qed.

(** C3 on the code: with the explicit rules satisfied, an e-mail the
    validator refuses is answered with a 500 and not with a 400-class
    status, whatever the store holds, and the store content is
    untouched.  Where the price on record can be read, the exception is
    the [ValidationError] that [Order(...)] raises inside the handler,
    naming [customer_email]; it is no [HTTPException]. *)
Theorem invalid_email_escapes payload w :
  1 <= len (strip (in_custom_name payload)) <= 24 ->
  1 <= in_quantity payload <= 10 ->
  validate_email (in_customer_email payload) = None ->
  http_status (fst (create_order validate_email float_of_str payload w)) = 500
  /\ client_error
       (http_status (fst (create_order validate_email float_of_str payload w)))
     = false
  /\ db (snd (create_order validate_email float_of_str payload w)) = db w
  /\ forall p,
       stored_price float_of_str w p ->
       exists fields,
         fst (create_order validate_email float_of_str payload w)
         = Raised (ValidationError "Order" fields)
         /\ In "customer_email"%string fields.
Proof.
  intros Hn Hq He.
  apply name_rejected_false in Hn. apply quantity_rejected_false in Hq.
  assert (Hfail : forall p,
            order_of validate_email payload w p
            = Raised (ValidationError "Order"
                        (Order_errors validate_email
                           (strip (in_custom_name payload)) (in_quantity payload)
                           (in_customer_email payload)
                           (in_shipping_address payload) p
                           (total_of p payload)))
            /\ In "customer_email"%string
                 (Order_errors validate_email
                    (strip (in_custom_name payload)) (in_quantity payload)
                    (in_customer_email payload)
                    (in_shipping_address payload) p (total_of p payload))).
  { intros p. unfold order_of. now apply new_Order_invalid_email. }
  destruct (create_order_unhandled payload w Hn Hq) as (Hs & Hc & Hdb).
  { intros p _. eexists. apply Hfail. }
  split; [exact Hs |]. split; [exact Hc |]. split; [exact Hdb |].
  intros p Hp. apply unit_price_reads in Hp.
  rewrite create_order_checked, Hp by assumption.
  destruct (Hfail p) as [Hr Hin]. rewrite Hr. eexists. split; [reflexivity | exact Hin].
Qed.

(** C4 on the code: with the explicit rules satisfied, a shipping
    address of fewer than 8 characters is answered with a 500 and not
    with a 400-class status, whatever the store holds, and the store
    content is untouched.  Where the price on record can be read, the
    address is caught by the [Order] schema only, as a [ValidationError]
    raised inside the handler and naming [shipping_address]. *)
Theorem short_address_escapes payload w :
  1 <= len (strip (in_custom_name payload)) <= 24 ->
  1 <= in_quantity payload <= 10 ->
  len (in_shipping_address payload) < 8 ->
  http_status (fst (create_order validate_email float_of_str payload w)) = 500
  /\ client_error
       (http_status (fst (create_order validate_email float_of_str payload w)))
     = false
  /\ db (snd (create_order validate_email float_of_str payload w)) = db w
  /\ forall p,
       stored_price float_of_str w p ->
       exists fields,
         fst (create_order validate_email float_of_str payload w)
         = Raised (ValidationError "Order" fields)
         /\ In "shipping_address"%string fields.
Proof.
  intros Hn Hq Ha.
  apply name_rejected_false in Hn. apply quantity_rejected_false in Hq.
  assert (Hfail : forall p,
            order_of validate_email payload w p
            = Raised (ValidationError "Order"
                        (Order_errors validate_email
                           (strip (in_custom_name payload)) (in_quantity payload)
                           (in_customer_email payload)
                           (in_shipping_address payload) p
                           (total_of p payload)))
            /\ In "shipping_address"%string
                 (Order_errors validate_email
                    (strip (in_custom_name payload)) (in_quantity payload)
                    (in_customer_email payload)
                    (in_shipping_address payload) p (total_of p payload))).
  { intros p. unfold order_of. now apply new_Order_short_address. }
  destruct (create_order_unhandled payload w Hn Hq) as (Hs & Hc & Hdb).
  { intros p _. eexists. apply Hfail. }
  split; [exact Hs |]. split; [exact Hc |]. split; [exact Hdb |].
  intros p Hp. apply unit_price_reads in Hp.
  rewrite create_order_checked, Hp by assumption.
  destruct (Hfail p) as [Hr Hin]. rewrite Hr. eexists. split; [reflexivity | exact Hin].
Qed.

(** An address of 8 characters or more is never among the fields the
    [Order] schema reports. *)
Lemma long_address_passes payload w fields :
  8 <= len (in_shipping_address payload) ->
  fst (create_order validate_email float_of_str payload w)
  = Raised (ValidationError "Order" fields) ->
  ~ In "shipping_address"%string fields.
Proof.
  intros Ha.
  destruct (name_rejected payload) eqn:Hn;
    [rewrite create_order_rejects_name by assumption; discriminate |].
  destruct (quantity_rejected payload) eqn:Hq;
    [rewrite create_order_rejects_quantity by assumption; discriminate |].
  rewrite create_order_checked by assumption.
  destruct (unit_price_of float_of_str (stored_product w)) as [p|e] eqn:Ep.
  - destruct (order_of validate_email payload w p) as [order|e] eqn:Eo.
    + destruct (db w) as [d|]; [destruct (insert_one _ _ d) |]; discriminate.
    + apply new_Order_raised in Eo. subst e. cbn [fst]. intros E.
      inversion E; subst. now apply Order_errors_long_address.
  - apply unit_price_raises in Ep. cbn [fst].
    destruct Ep as [E | [E | E]]; subst e; discriminate.
Qed.

End OrderEndpoint.
(** ** The product endpoint and the startup hook *)

Lemma static_figurine_value :
  static_figurine
  = Returned {| name := figurine_name; width_cm := 10.0; height_cm := 30.0;
                material := lit "Plastic"; price_usd := 49.99;
                images := Some [figurine_image];
                description := Some figurine_description;
                customizable_base := true |}.
Proof. reflexivity. Qed.

Lemma writes_record_find coll w : writes (record (FindOne coll) w) = writes w.
Proof.
  unfold writes, record. cbn [journal]. rewrite filter_app. cbn.
  apply app_nil_r.
Qed.

Section ProductEndpoint.

Variable float_of_str : pystr -> option float.
Variable coerce_str : value -> option pystr.

(** C6: when no product record exists (no store, or an empty figurine
    collection) [GET /api/product] returns the fixed default product,
    named "Michael Jackson Collectible Figurine" at 49.99, and writes
    nothing: the store content is the same and no insertion is issued. *)
Theorem get_product_fallback w :
  db w = None \/ (exists d, db w = Some d /\ collection d "figurine" = []) ->
  exists product,
    fst (get_product float_of_str coerce_str w) = Returned product
    /\ static_figurine = Returned product
    /\ name product = figurine_name
    /\ price_usd product = 49.99%float
    /\ db (snd (get_product float_of_str coerce_str w)) = db w
    /\ writes (snd (get_product float_of_str coerce_str w)) = writes w.
Proof.
  intros H. rewrite static_figurine_value. eexists.
  assert (E : get_product float_of_str coerce_str w
              = (static_figurine,
                 match db w with
                 | Some _ => record (FindOne "figurine") w
                 | None => w
                 end)).
  { unfold get_product, bind, the_db, find_one, lift, ret.
    destruct H as [H | (d & H & Hc)]; rewrite H.
    - reflexivity.
    - rewrite H, Hc. reflexivity. }
  rewrite E, static_figurine_value. cbn [fst snd].
  split; [reflexivity |]. split; [reflexivity |].
  split; [reflexivity |]. split; [reflexivity |].
  destruct (db w) eqn:Edb.
  - split; [exact Edb | apply writes_record_find].
  - split; [exact Edb | reflexivity].
Qed.

End ProductEndpoint.

Lemma find_filter {A} (f : A -> bool) (l : list A) :
  match find f l with
  | Some _ => filter f l <> []
  | None => filter f l = []
  end.
Proof.
  induction l as [|a l IH]; cbn; [reflexivity |].
  destruct (f a); [discriminate | exact IH].
Qed.

Lemma find_app_last {A} (f : A -> bool) (l : list A) (a : A) :
  f a = true -> find f (l ++ [a]) <> None.
Proof.
  intros Ha. induction l as [|b l IH]; cbn.
  - rewrite Ha. discriminate.
  - destruct (f b); [discriminate | exact IH].
Qed.

Lemma seed_run w :
  seed_figurine_product w =
  match db w with
  | None => (Returned tt, w)
  | Some d =>
      match find (name_is figurine_name) (collection d "figurine") with
      | Some _ => (Returned tt, record (FindOne "figurine") w)
      | None =>
          (Returned tt,
           record (InsertOne "figurine" (next_id d))
             {| db := Some
                  {| collection := fun c =>
                       if String.eqb c "figurine"
                       then collection d c
                            ++ [{| _id := next_id d;
                                   content :=
                                     model_dump
                                       (AFigurine
                                          {| name := figurine_name;
                                             width_cm := 10.0;
                                             height_cm := 30.0;
                                             material := lit "Plastic";
                                             price_usd := 49.99;
                                             images := Some [figurine_image];
                                             description :=
                                               Some figurine_description;
                                             customizable_base := true |}) |}]
                       else collection d c;
                     next_id := N.succ (next_id d) |};
                journal := journal w ++ [FindOne "figurine"] |})
      end
  end.
Proof.
  unfold seed_figurine_product. rewrite static_figurine_value.
  destruct w as [[d|] j];
    cbv beta iota delta [bind the_db find_one lift ret create_document db
                         journal record find_first insert_one];
    [| reflexivity].
  destruct (find (name_is figurine_name) (collection d "figurine"));
    reflexivity.
Qed.

(** C7: the startup hook is idempotent.  A second run leaves the store
    as the first run left it; after both runs the number of records with
    the fixed name is 1 if there was none and a store is attached, and
    is otherwise what it was; a record is inserted only when none with
    that name exists.  In particular a store with at most one such
    record never ends with two. *)
Theorem seeding_idempotent w :
  db (startup (startup w)) = db (startup w)
  /\ named_records (startup (startup w))
     = match db w with
       | Some _ => Nat.max 1 (named_records w)
       | None => O
       end
  /\ (named_records w <> O -> db (startup w) = db w)
  /\ (named_records w <= 1 -> named_records (startup (startup w)) <= 1)%nat.
Proof.
  assert (Step : forall v,
            match db v with
            | None => startup v = v
            | Some d =>
                match find (name_is figurine_name) (collection d "figurine") with
                | Some _ =>
                    db (startup v) = db v /\ (1 <= named_records v)%nat
                | None =>
                    named_records v = O
                    /\ named_records (startup v) = 1%nat
                    /\ exists d',
                         db (startup v) = Some d'
                         /\ find (name_is figurine_name)
                              (collection d' "figurine") <> None
                end
            end).
  { intros v. unfold startup. rewrite seed_run.
    destruct v as [[d|] j]; cbn [db]; [| reflexivity].
    pose proof (find_filter (name_is figurine_name) (collection d "figurine")) as F.
    destruct (find (name_is figurine_name) (collection d "figurine")).
    - cbn [snd record db]. split; [reflexivity |].
      unfold named_records. cbn [db].
      destruct (filter _ _); [contradiction | cbn; lia].
    - unfold named_records. cbn [snd record db collection].
      rewrite F. split; [reflexivity |]. split.
      + cbn [String.eqb Ascii.eqb Bool.eqb]. rewrite filter_app, F. reflexivity.
      + eexists. split; [reflexivity |]. cbn [collection].
        cbn [String.eqb Ascii.eqb Bool.eqb]. now apply find_app_last. }
  pose proof (Step w) as Hw. pose proof (Step (startup w)) as Hs.
  destruct (db w) as [d|] eqn:Edb.
  - destruct (find (name_is figurine_name) (collection d "figurine")) eqn:Ef.
    + destruct Hw as [Hdb Hn].
      rewrite Hdb, Ef in Hs. destruct Hs as [Hdb2 Hn2].
      assert (En : named_records (startup w) = named_records w)
        by (unfold named_records; now rewrite Hdb, Edb).
      assert (En2 : named_records (startup (startup w)) = named_records w)
        by (unfold named_records; now rewrite Hdb2, Edb).
      repeat split; try congruence; rewrite ?En2; lia.
    + destruct Hw as (Hn & Hn1 & d' & Hdb & Hf).
      rewrite Hdb in Hs.
      destruct (find (name_is figurine_name) (collection d' "figurine"));
        [| contradiction].
      destruct Hs as [Hdb2 _].
      assert (En2 : named_records (startup (startup w)) = 1%nat)
        by (rewrite <- Hn1; unfold named_records; now rewrite Hdb2, Hdb).
      repeat split; try congruence; rewrite ?En2, ?Hn; try lia.
  - rewrite Hw, Edb in Hs. rewrite Hs, Hw.
    unfold named_records. rewrite Edb. repeat split; lia.
Qed.

(** ** The claims on concrete requests *)

Ltac by_computation := vm_compute; intuition (discriminate || reflexivity).

Lemma create_order_total_witness :
  exists id w',
    create_order single_at_sign digits_only sample_order priced_store
    = (Returned
         {| order_id := id;
            out_total_usd :=
              round2 (20.0 * of_int (in_quantity sample_order) + 4.0 + 6.99)%float |},
       w').
Proof.
  apply (create_order_total single_at_sign digits_only sample_order priced_store
           (lit "fan@example.com") 20.0%float);
    try by_computation.
  unfold stored_price. cbn. constructor.
Defined.

Lemma engraving_fee_unconditional_witness :
  engraving_fee_of (in_custom_name sample_order) = 4.0%float.
Proof.
  apply (engraving_fee_unconditional sample_order). by_computation.
Defined.

Lemma create_order_offline_witness :
  create_order single_at_sign digits_only sample_order offline
  = (Returned
       {| order_id := lit "demo-order";
          out_total_usd :=
            round2 (49.99 * of_int (in_quantity sample_order) + 4.0 + 6.99)%float |},
     offline).
Proof.
  apply (create_order_offline single_at_sign digits_only sample_order offline
           (lit "fan@example.com")); by_computation.
Defined.

Lemma get_product_fallback_witness :
  exists product,
    fst (get_product digits_only no_coercion empty_store) = Returned product
    /\ static_figurine = Returned product
    /\ name product = figurine_name
    /\ price_usd product = 49.99%float
    /\ db (snd (get_product digits_only no_coercion empty_store)) = db empty_store
    /\ writes (snd (get_product digits_only no_coercion empty_store)) = writes empty_store.
Proof.
  apply (get_product_fallback digits_only no_coercion empty_store). right. eexists. split; reflexivity.
Defined.

Lemma seeding_idempotent_witness :
  named_records (startup (startup empty_store)) = 1%nat.
Proof.
  exact (proj1 (proj2 (seeding_idempotent empty_store))).
Defined.

Lemma custom_name_rule_witness :
  fst (create_order single_at_sign digits_only
         (order_for letters24 1 "fan@example.com" "1 Main Street") offline)
  <> Raised (HTTPException 400 name_detail).
Proof.
  apply (custom_name_rule single_at_sign digits_only
           (order_for letters24 1 "fan@example.com" "1 Main Street") offline).
  by_computation.
Defined.

Lemma quantity_rule_witness :
  fst (create_order single_at_sign digits_only
         (order_for "Billie" 10 "fan@example.com" "1 Main Street") offline)
  <> Raised (HTTPException 400 quantity_detail).
Proof.
  apply (quantity_rule single_at_sign digits_only
           (order_for "Billie" 10 "fan@example.com" "1 Main Street") offline).
  by_computation.
Defined.

Lemma rejection_precedes_store_witness :
  exists detail,
    create_order single_at_sign digits_only
      (order_for "   " 11 "fan@example.com" "1 Main Street") priced_store
    = (Raised (HTTPException 400 detail), priced_store)
    /\ detail = name_detail.
Proof.
  destruct (rejection_precedes_store single_at_sign digits_only
              (order_for "   " 11 "fan@example.com" "1 Main Street")
              priced_store) as (detail & E & Hn & _).
  - left. left. reflexivity.
  - exists detail. split; [exact E | apply Hn; left; reflexivity].
Defined.

Lemma invalid_email_escapes_witness :
  http_status
    (fst (create_order single_at_sign digits_only
            (order_for "Billie" 1 "not-an-email" "1 Main Street") priced_store))
  = 500
  /\ exists fields,
       fst (create_order single_at_sign digits_only
              (order_for "Billie" 1 "not-an-email" "1 Main Street") priced_store)
       = Raised (ValidationError "Order" fields)
       /\ In "customer_email"%string fields.
Proof.
  destruct (invalid_email_escapes single_at_sign digits_only
              (order_for "Billie" 1 "not-an-email" "1 Main Street") priced_store)
    as (Hs & _ & _ & Hv); [by_computation .. |].
  split; [exact Hs |]. apply (Hv 20.0%float).
  unfold stored_price. cbn. constructor.
Defined.

Lemma short_address_escapes_witness :
  http_status
    (fst (create_order single_at_sign digits_only
            (order_for "Billie" 1 "fan@example.com" "1 Main") priced_store))
  = 500
  /\ exists fields,
       fst (create_order single_at_sign digits_only
              (order_for "Billie" 1 "fan@example.com" "1 Main") priced_store)
       = Raised (ValidationError "Order" fields)
       /\ In "shipping_address"%string fields.
Proof.
  destruct (short_address_escapes single_at_sign digits_only
              (order_for "Billie" 1 "fan@example.com" "1 Main") priced_store)
    as (Hs & _ & _ & Hv); [by_computation .. |].
  split; [exact Hs |]. apply (Hv 20.0%float).
  unfold stored_price. cbn. constructor.
Defined.

(** The same requests, run. *)

Example order_offline_total :
  fst (create_order single_at_sign digits_only sample_order offline)
  = Returned {| order_id := lit "demo-order"; out_total_usd := 160.96 |}.
Proof. vm_compute. reflexivity. Qed.

Example order_priced_total :
  fst (create_order single_at_sign digits_only sample_order priced_store)
  = Returned {| order_id := lit "000000000000000000000002";
                out_total_usd := 70.99 |}.
Proof. vm_compute. reflexivity. Qed.

Example order_priced_journal :
  journal (snd (create_order single_at_sign digits_only sample_order priced_store))
  = [FindOne "figurine"; InsertOne "order" 2].
Proof. vm_compute. reflexivity. Qed.

Example name_bounds :
  map (fun n => http_status
                  (fst (create_order single_at_sign digits_only
                          (order_for n 1 "fan@example.com" "1 Main Street")
                          offline)))
      ["   "; "a"; letters24; letters25]%string
  = [400; 200; 200; 400].
Proof. vm_compute. reflexivity. Qed.

Example quantity_bounds :
  map (fun q => http_status
                  (fst (create_order single_at_sign digits_only
                          (order_for "Billie" q "fan@example.com" "1 Main Street")
                          offline)))
      [0; 1; 10; 11]
  = [400; 200; 200; 400].
Proof. vm_compute. reflexivity. Qed.

Example invalid_email_status :
  create_order single_at_sign digits_only
    (order_for "Billie" 1 "not-an-email" "1 Main Street") offline
  = (Raised (ValidationError "Order" ["customer_email"%string]), offline)
  /\ http_status
       (fst (create_order single_at_sign digits_only
               (order_for "Billie" 1 "not-an-email" "1 Main Street") offline))
     = 500.
Proof. split; vm_compute; reflexivity. Qed.

Example short_address_status :
  create_order single_at_sign digits_only
    (order_for "Billie" 1 "fan@example.com" "1 Main") offline
  = (Raised (ValidationError "Order" ["shipping_address"%string]), offline)
  /\ http_status
       (fst (create_order single_at_sign digits_only
               (order_for "Billie" 1 "fan@example.com" "1 Main") offline))
     = 500.
Proof. split; vm_compute; reflexivity. Qed.

Example seeding_twice_journal :
  journal (startup (startup empty_store))
  = [FindOne "figurine"; InsertOne "figurine" 1; FindOne "figurine"].
Proof. vm_compute. reflexivity. Qed.


Example order_unreadable_price :
  create_order single_at_sign digits_only sample_order
    (figurine_store [unpriced_document])
  = (Raised TypeError,
     record (FindOne "figurine") (figurine_store [unpriced_document]))
  /\ http_status
       (fst (create_order single_at_sign digits_only sample_order
               (figurine_store [unpriced_document])))
     = 500.
Proof. split; vm_compute; reflexivity. Qed.
(** * Further properties of the handlers *)

(** ** What [create_order] accepts, raises and stores *)

Section OrderFacts.

Variable validate_email : pystr -> option pystr.
Variable float_of_str : pystr -> option float.

Lemma check_nil ok field : check ok field = [] <-> ok = true.
Proof. destruct ok; cbn; split; congruence. Qed.

Lemma Order_errors_nil cname q email addr price total :
  Order_errors validate_email cname q email addr price total = [] <->
  (1 <= len cname <= 24) /\ (1 <= q <= 10)
  /\ validate_email email <> None /\ 8 <= len addr
  /\ ge0 price = true /\ ge0 total = true.
Proof.
  unfold Order_errors. split.
  - intros H.
    repeat (apply app_eq_nil in H; destruct H as [?H H]).
    rewrite check_nil in *. rewrite ?andb_true_iff, ?Z.leb_le in *.
    destruct (validate_email email); [| discriminate].
    repeat split; (lia || congruence || tauto).
  - intros (Hn & Hq & He & Ha & Hp & Ht).
    destruct (validate_email email); [| contradiction].
    repeat (rewrite (proj2 (check_nil _ _))
              by (rewrite ?andb_true_iff, ?Z.leb_le; auto; lia)).
    reflexivity.
Qed.

Lemma new_Order_returned pid cname q cust email addr price total notes o :
  new_Order validate_email pid cname q cust email addr price total notes
  = Returned o ->
  exists e,
    validate_email email = Some e
    /\ Order_errors validate_email cname q email addr price total = []
    /\ o = {| product_id := pid; custom_name := cname; quantity := q;
              customer_name := cust; customer_email := e;
              shipping_address := addr; unit_price_usd := price;
              total_usd := total; notes := notes |}.
Proof.
  unfold new_Order.
  destruct (validate_email email) as [e|]; [| discriminate].
  destruct (Order_errors _ _ _ _ _ _ _); [| discriminate].
  intros H. inversion H. eauto.
Qed.

(** The world [create_order] leaves after a stored order. *)
Lemma create_order_stored payload w d out w' :
  db w = Some d ->
  create_order validate_email float_of_str payload w = (Returned out, w') ->
  exists p order,
    unit_price_of float_of_str (stored_product w) = Returned p
    /\ order_of validate_email payload w p = Returned order
    /\ name_rejected payload = false
    /\ quantity_rejected payload = false
    /\ out = {| order_id := str_of_id (next_id d);
                out_total_usd := total_of p payload |}
    /\ w' = record (InsertOne "order" (next_id d))
              {| db := Some (snd (insert_one "order" (OrderBody order) d));
                 journal := journal w ++ [FindOne "figurine"] |}.
Proof.
  intros Hdb Hrun.
  destruct (name_rejected payload) eqn:Hn;
    [rewrite create_order_rejects_name in Hrun by assumption; discriminate |].
  destruct (quantity_rejected payload) eqn:Hq;
    [rewrite create_order_rejects_quantity in Hrun by assumption; discriminate |].
  rewrite create_order_checked in Hrun by assumption.
  destruct (unit_price_of float_of_str (stored_product w)) as [p|e] eqn:Ep;
    [| discriminate].
  destruct (order_of validate_email payload w p) as [order|e] eqn:Eo;
    [| discriminate].
  rewrite Hdb in Hrun. unfold after_lookup in Hrun. rewrite Hdb in Hrun.
  change (insert_one "order" (OrderBody order) d)
    with (next_id d, snd (insert_one "order" (OrderBody order) d)) in Hrun.
  cbv beta iota zeta in Hrun. inversion Hrun; subst.
  exists p, order. repeat split; (reflexivity || assumption).
Qed.

End OrderFacts.

(** ** Trimming *)

Lemma lstrip_head s c r : lstrip s = c :: r -> isspace c = false.
Proof.
  induction s as [|a s IH]; cbn; [discriminate |].
  destruct (isspace a) eqn:Ea; [exact IH |].
  intros H. inversion H; subst. exact Ea.
Qed.

Lemma lstrip_app_last l c :
  isspace c = false -> lstrip (l ++ [c]) = lstrip l ++ [c].
Proof.
  intros Hc. induction l as [|b l IH]; cbn.
  - now rewrite Hc.
  - destruct (isspace b); [exact IH | reflexivity].
Qed.

Lemma lstrip_spaces ws x :
  forallb isspace ws = true -> lstrip (ws ++ x) = lstrip x.
Proof.
  induction ws as [|a ws IH]; cbn; [reflexivity |].
  intros H. apply andb_true_iff in H. destruct H as [Ha Hws].
  rewrite Ha. now apply IH.
Qed.

Lemma lstrip_all_space s : lstrip s = [] -> forallb isspace s = true.
Proof.
  induction s as [|a s IH]; cbn; [reflexivity |].
  destruct (isspace a); [exact IH | discriminate].
Qed.

Lemma lstrip_app_kept s x : lstrip s <> [] -> lstrip (s ++ x) = lstrip s ++ x.
Proof.
  induction s as [|a s IH]; cbn; [congruence |].
  destruct (isspace a); [exact IH | reflexivity].
Qed.

Lemma forallb_rev {A} (f : A -> bool) (l : list A) :
  forallb f l = true -> forallb f (rev l) = true.
Proof.
  rewrite !forallb_forall. intros H x Hx. apply H. now apply in_rev.
Qed.

Lemma rstrip_spaces x ws :
  forallb isspace ws = true -> rstrip (x ++ ws) = rstrip x.
Proof.
  intros H. unfold rstrip. rewrite rev_app_distr, lstrip_spaces; [reflexivity |].
  now apply forallb_rev.
Qed.

Lemma rstrip_kept c t : isspace c = false -> rstrip (c :: t) = c :: rstrip t.
Proof.
  intros Hc. unfold rstrip. cbn [rev].
  rewrite lstrip_app_last by assumption. rewrite rev_app_distr. reflexivity.
Qed.

Lemma strip_first s c r : strip s = c :: r -> isspace c = false.
Proof.
  unfold strip. destruct (lstrip s) as [|a t] eqn:E.
  - discriminate.
  - pose proof (lstrip_head s a t E) as Ha.
    rewrite rstrip_kept by assumption. intros H. inversion H; subst. exact Ha.
Qed.

Lemma strip_last s r c : strip s = r ++ [c] -> isspace c = false.
Proof.
  unfold strip, rstrip. intros H. apply (f_equal (@rev N)) in H.
  rewrite rev_involutive, rev_app_distr in H. cbn in H.
  exact (lstrip_head _ _ _ H).
Qed.

Lemma strip_padded ws s ws' :
  forallb isspace ws = true -> forallb isspace ws' = true ->
  strip (ws ++ s ++ ws') = strip s.
Proof.
  intros Hl Hr. unfold strip. rewrite lstrip_spaces by assumption.
  destruct (lstrip s) as [|a t] eqn:E.
  - apply lstrip_all_space in E.
    rewrite <- (app_nil_r (s ++ ws')), lstrip_spaces; [reflexivity |].
    rewrite forallb_app. now rewrite E, Hr.
  - rewrite lstrip_app_kept by congruence. rewrite E.
    now apply rstrip_spaces.
Qed.

Lemma strip_fixed s : strip (strip s) = strip s.
Proof.
  rewrite <- (app_nil_r (strip s)) at 1.
  assert (H : forall t, (forall c r, t = c :: r -> isspace c = false) ->
                        lstrip t = t).
  { intros [|c r] Hh; cbn; [reflexivity |]. now rewrite (Hh c r eq_refl). }
  unfold strip at 1. rewrite app_nil_r.
  rewrite (H (strip s) (strip_first s)).
  unfold rstrip. rewrite H; [apply rev_involutive |].
  intros c r E. apply (strip_last s (rev r) c).
  apply (f_equal (@rev N)) in E. rewrite rev_involutive in E. exact E.
Qed.

(** ** Identifiers as strings *)

Lemma hex_digits_acc n : forall v acc,
  hex_digits n v acc = hex_digits n v [] ++ acc.
Proof.
  induction n as [|n IH]; intros v acc; cbn; [reflexivity |].
  rewrite IH. rewrite (IH _ [_]). now rewrite <- app_assoc.
Qed.

Lemma hex_digits_length n : forall v, List.length (hex_digits n v []) = n.
Proof.
  induction n as [|n IH]; intros v; cbn; [reflexivity |].
  rewrite hex_digits_acc, length_app, IH. cbn. lia.
Qed.

Lemma hex_digit_inj a b :
  (a < 16)%N -> (b < 16)%N -> hex_digit a = hex_digit b -> a = b.
Proof.
  unfold hex_digit. intros Ha Hb.
  destruct (N.ltb_spec a 10), (N.ltb_spec b 10); lia.
Qed.

Lemma hex_digits_inj n : forall a b,
  hex_digits n a [] = hex_digits n b [] ->
  (a mod 16 ^ N.of_nat n = b mod 16 ^ N.of_nat n)%N.
Proof.
  induction n as [|n IH]; intros a b H.
  - cbn. now rewrite !N.mod_1_r.
  - cbn [hex_digits] in H.
    rewrite (hex_digits_acc n (a / 16)), (hex_digits_acc n (b / 16)) in H.
    apply app_inj_tail in H. destruct H as [Hhi Hlo].
    apply IH in Hhi.
    apply hex_digit_inj in Hlo; try (apply N.mod_lt; discriminate).
    rewrite Nat2N.inj_succ, N.pow_succ_r'.
    rewrite !N.Div0.mod_mul_r. congruence.
Qed.

Lemma insert_one_other coll content d c :
  String.eqb c coll = false ->
  collection (snd (insert_one coll content d)) c = collection d c.
Proof. intros H. cbn. now rewrite H. Qed.

Lemma insert_one_same coll content d :
  collection (snd (insert_one coll content d)) coll
  = collection d coll ++ [{| _id := next_id d; content := content |}].
Proof. cbn. now rewrite String.eqb_refl. Qed.

Lemma hex_digits_last n v :
  hex_digits (S n) v []
  = hex_digits n (v / 16)%N [] ++ [hex_digit (v mod 16)%N].
Proof. cbn [hex_digits]. apply hex_digits_acc. Qed.

Lemma succ_mod_differs n : (N.succ n mod 16 <> n mod 16)%N.
Proof.
  pose proof (N.mod_lt n 16). pose proof (N.mod_lt (N.succ n) 16).
  pose proof (N.Div0.div_mod n 16). pose proof (N.Div0.div_mod (N.succ n) 16).
  lia.
Qed.

Lemma str_of_id_succ n : str_of_id (N.succ n) <> str_of_id n.
Proof.
  unfold str_of_id. intros H. apply (succ_mod_differs n).
  rewrite !(hex_digits_last 23) in H.
  apply app_inj_tail in H. destruct H as [_ H].
  apply hex_digit_inj in H; [exact H | apply N.mod_lt; discriminate ..].
Qed.

Section OrderStore.

Variable validate_email : pystr -> option pystr.
Variable float_of_str : pystr -> option float.

Lemma stored_product_after_order payload w :
  stored_product (snd (create_order validate_email float_of_str payload w))
  = stored_product w.
Proof.
  destruct (name_rejected payload) eqn:Hn;
    [now rewrite create_order_rejects_name |].
  destruct (quantity_rejected payload) eqn:Hq;
    [now rewrite create_order_rejects_quantity |].
  rewrite create_order_checked by assumption.
  destruct (unit_price_of float_of_str (stored_product w)) as [p|e];
    [destruct (order_of validate_email payload w p) as [order|e] |];
    unfold after_lookup, stored_product; destruct w as [[d|] j]; reflexivity.
Qed.

Lemma create_order_conditions payload w out :
  fst (create_order validate_email float_of_str payload w) = Returned out ->
  1 <= len (strip (in_custom_name payload)) <= 24
  /\ 1 <= in_quantity payload <= 10
  /\ validate_email (in_customer_email payload) <> None
  /\ 8 <= len (in_shipping_address payload)
  /\ exists p, stored_price float_of_str w p /\ ge0 p = true.
Proof.
  intros H.
  destruct (name_rejected payload) eqn:Hn;
    [rewrite create_order_rejects_name in H by assumption; discriminate |].
  destruct (quantity_rejected payload) eqn:Hq;
    [rewrite create_order_rejects_quantity in H by assumption; discriminate |].
  rewrite create_order_checked in H by assumption.
  destruct (unit_price_of float_of_str (stored_product w)) as [p|e] eqn:Ep;
    [| discriminate].
  destruct (order_of validate_email payload w p) as [order|e] eqn:Eo;
    [| discriminate].
  apply new_Order_returned in Eo. destruct Eo as (e & _ & Hnil & _).
  apply Order_errors_nil in Hnil. apply unit_price_reads in Ep.
  destruct Hnil as (H1 & H2 & H3 & H4 & H5 & _).
  repeat split; try assumption; try lia. now exists p.
Qed.

(** X1: [create_order] returns an order exactly when the trimmed name
    has 1 to 24 characters, the quantity is 1 to 10, the e-mail is
    valid, the address has at least 8 characters and the price on record
    (what [price_usd] of the stored product reads as, 49.99 for lack of
    one) is a non-negative number; in every other case it raises. *)
Theorem create_order_returns_iff payload w :
  (exists out, fst (create_order validate_email float_of_str payload w) = Returned out)
  <->
  (1 <= len (strip (in_custom_name payload)) <= 24
   /\ 1 <= in_quantity payload <= 10
   /\ validate_email (in_customer_email payload) <> None
   /\ 8 <= len (in_shipping_address payload)
   /\ exists p, stored_price float_of_str w p /\ ge0 p = true).
Proof.
  split.
  - intros (out & H). exact (create_order_conditions payload w out H).
  - intros (Hn & Hq & He & Ha & p & Hs & Hp).
    destruct (validate_email (in_customer_email payload)) as [e|] eqn:Ee;
      [| contradiction].
    destruct (create_order_accepts validate_email payload w e p Hn Hq Ee Ha Hp)
      as (order & Ho & _).
    apply unit_price_reads in Hs.
    rewrite create_order_checked, Hs, Ho
      by (try apply name_rejected_false; try apply quantity_rejected_false; lia).
    destruct (db w) as [d|]; [destruct (insert_one _ _ d) |];
      eexists; reflexivity.
Qed.

(** X2: whenever [create_order] raises, nothing has been written: the
    store content is the one it started from and the journal has gained
    no insertion. *)
Theorem create_order_failure_writes_nothing payload w e :
  fst (create_order validate_email float_of_str payload w) = Raised e ->
  db (snd (create_order validate_email float_of_str payload w)) = db w
  /\ writes (snd (create_order validate_email float_of_str payload w)) = writes w.
Proof.
  destruct (name_rejected payload) eqn:Hn;
    [rewrite create_order_rejects_name by assumption; now split |].
  destruct (quantity_rejected payload) eqn:Hq;
    [rewrite create_order_rejects_quantity by assumption; now split |].
  rewrite create_order_checked by assumption.
  assert (Hlook : db (after_lookup w) = db w
                  /\ writes (after_lookup w) = writes w).
  { unfold after_lookup. destruct (db w) eqn:Edb; [| now split].
    split; [exact Edb | apply writes_record_find]. }
  destruct (unit_price_of float_of_str (stored_product w)) as [p|e'];
    [| intros _; exact Hlook].
  destruct (order_of validate_email payload w p) as [order|e'].
  - destruct (db w) as [d|]; [destruct (insert_one _ _ d) |]; discriminate.
  - intros _. exact Hlook.
Qed.

(** X3: when [create_order] raises a [ValidationError] it is the one of
    the [Order] schema, raised after the price on record has been read.
    It never names [custom_name] or [quantity] (the explicit checks have
    already enforced both), and names [total_usd] only together with
    [unit_price_usd]. *)
Theorem order_validation_error_fields payload w m fields :
  fst (create_order validate_email float_of_str payload w)
  = Raised (ValidationError m fields) ->
  m = "Order"%string
  /\ fields <> []
  /\ ~ In "custom_name"%string fields
  /\ ~ In "quantity"%string fields
  /\ (In "total_usd"%string fields -> In "unit_price_usd"%string fields)
  /\ exists p, stored_price float_of_str w p.
Proof.
  destruct (name_rejected payload) eqn:Hn;
    [rewrite create_order_rejects_name by assumption; discriminate |].
  destruct (quantity_rejected payload) eqn:Hq;
    [rewrite create_order_rejects_quantity by assumption; discriminate |].
  rewrite create_order_checked by assumption.
  destruct (unit_price_of float_of_str (stored_product w)) as [p|e'] eqn:Ep.
  2:{ apply unit_price_raises in Ep. cbn [fst].
      destruct Ep as [E | [E | E]]; subst e'; discriminate. }
  destruct (order_of validate_email payload w p) as [order|e'] eqn:Eo.
  { destruct (db w) as [d|]; [destruct (insert_one _ _ d) |]; discriminate. }
  cbn [fst]. intros H. inversion H; subst e'.
  unfold order_of in Eo. pose proof Eo as Er.
  apply new_Order_raised in Er. inversion Er as [[Em Ef]].
  apply name_rejected_false in Hn. apply quantity_rejected_false in Hq.
  split; [reflexivity |]. split.
  - intros Hnil. unfold new_Order in Eo. rewrite Hnil in Eo.
    destruct (validate_email (in_customer_email payload)) eqn:Ee;
      [discriminate |].
    apply Order_errors_nil in Hnil. rewrite Ee in Hnil. tauto.
  - split; [| split; [| split; [| exists p; now apply unit_price_reads]]];
      rewrite total_of_checked by now apply name_rejected_false.
    all: unfold Order_errors.
    all: replace (1 <=? len (strip (in_custom_name payload))) with true
      by (symmetry; apply Z.leb_le; lia).
    all: replace (len (strip (in_custom_name payload)) <=? 24) with true
      by (symmetry; apply Z.leb_le; lia).
    all: replace (1 <=? in_quantity payload) with true
      by (symmetry; apply Z.leb_le; lia).
    all: replace (in_quantity payload <=? 10) with true
      by (symmetry; apply Z.leb_le; lia).
    all: cbn [andb check app].
    all: destruct (ge0 p) eqn:Egp;
      [rewrite (total_nonneg _ _ Egp Hq) |];
      unfold check;
      repeat match goal with
             | |- context [if ?b then _ else _] => destruct b
             end; cbn; intuition discriminate.
Qed.

(** X4: a successful order with a store attached is persisted as
    computed.  One document is appended to the [order] collection under
    the next identifier, every other collection is untouched, the
    identifier returned is that document's, and the stored record holds
    the trimmed name, the payload's quantity, address, customer and
    notes, the normalised e-mail, the price on record of the looked-up
    product with its identifier, and the total returned to the client. *)
Theorem create_order_persists payload w d out w' :
  db w = Some d ->
  create_order validate_email float_of_str payload w = (Returned out, w') ->
  exists d' order,
    db w' = Some d'
    /\ collection d' "order"
       = collection d "order"
         ++ [{| _id := next_id d; content := OrderBody order |}]
    /\ (forall c, c <> "order"%string -> collection d' c = collection d c)
    /\ next_id d' = N.succ (next_id d)
    /\ order_id out = str_of_id (next_id d)
    /\ journal w'
       = journal w ++ [FindOne "figurine"; InsertOne "order" (next_id d)]
    /\ custom_name order = strip (in_custom_name payload)
    /\ quantity order = in_quantity payload
    /\ customer_name order = in_customer_name payload
    /\ validate_email (in_customer_email payload) = Some (customer_email order)
    /\ shipping_address order = in_shipping_address payload
    /\ notes order = in_notes payload
    /\ stored_price float_of_str w (unit_price_usd order)
    /\ product_id order
       = option_map (fun doc => str_of_id (_id doc)) (stored_product w)
    /\ total_usd order = out_total_usd out.
Proof.
  intros Hdb Hrun.
  destruct (create_order_stored validate_email float_of_str payload w d out w'
              Hdb Hrun)
    as (p & order & Hp & Ho & Hn & Hq & Hout & Hw).
  apply unit_price_reads in Hp.
  unfold order_of in Ho. apply new_Order_returned in Ho.
  destruct Ho as (e & He & _ & Eorder).
  exists (snd (insert_one "order" (OrderBody order) d)), order.
  subst w' out. cbn [db record journal order_id out_total_usd].
  split; [reflexivity |]. split; [apply insert_one_same |].
  split.
  { intros c Hc. apply insert_one_other. now apply String.eqb_neq. }
  split; [reflexivity |]. split; [reflexivity |].
  split; [now rewrite <- app_assoc |].
  subst order. cbn. repeat split; try reflexivity; assumption.
Qed.

End OrderStore.
Section OrderInvariants.

Variable validate_email : pystr -> option pystr.
Variable float_of_str : pystr -> option float.

(** X6: the custom name of a persisted order is trimmed: it has 1 to 24
    characters, neither its first nor its last character is whitespace,
    and trimming it again changes nothing. *)
Theorem stored_name_trimmed payload w d out w' :
  db w = Some d ->
  create_order validate_email float_of_str payload w = (Returned out, w') ->
  exists d' order,
    db w' = Some d'
    /\ In {| _id := next_id d; content := OrderBody order |}
          (collection d' "order")
    /\ 1 <= len (custom_name order) <= 24
    /\ (forall c r, custom_name order = c :: r -> isspace c = false)
    /\ (forall r c, custom_name order = r ++ [c] -> isspace c = false)
    /\ strip (custom_name order) = custom_name order.
Proof.
  intros Hdb Hrun.
  destruct (create_order_stored validate_email float_of_str payload w d out w'
              Hdb Hrun)
    as (p & order & _ & Ho & Hn & _ & _ & Hw).
  unfold order_of in Ho. apply new_Order_returned in Ho.
  destruct Ho as (e & _ & _ & Eorder).
  exists (snd (insert_one "order" (OrderBody order) d)), order.
  subst w'. cbn [db record].
  split; [reflexivity |].
  split; [rewrite insert_one_same, in_app_iff; right; now left |].
  subst order. cbn [custom_name].
  split; [now apply name_rejected_false |].
  split; [apply strip_first |]. split; [apply strip_last | apply strip_fixed].
Qed.

(** X7: whitespace around the custom name does not matter: a payload
    whose name is padded with whitespace on either side is handled
    exactly as the unpadded one, in result and in effect. *)
Theorem create_order_ignores_padding payload ws ws' w :
  forallb isspace ws = true -> forallb isspace ws' = true ->
  create_order validate_email float_of_str
    (with_custom_name payload (ws ++ in_custom_name payload ++ ws')) w
  = create_order validate_email float_of_str payload w.
Proof.
  intros Hl Hr.
  unfold create_order, name_rejected, quantity_rejected, total_of,
    engraving_fee_of, with_custom_name.
  cbn [in_custom_name in_quantity in_customer_name in_customer_email
       in_shipping_address in_notes].
  rewrite strip_padded by assumption. reflexivity.
Qed.

(** X8: for a non-negative unit price and a payload past the explicit
    checks the total is never negative and never NaN, so the [ge=0]
    constraint on [total_usd] cannot be what rejects an order. *)
Theorem order_total_nonneg price payload :
  ge0 price = true ->
  1 <= len (strip (in_custom_name payload)) <= 24 ->
  1 <= in_quantity payload <= 10 ->
  ge0 (total_of price payload) = true.
Proof.
  intros Hp Hn Hq.
  rewrite total_of_checked by now apply name_rejected_false.
  now apply total_nonneg.
Qed.

(** X9: placing an order, accepted or not, never changes the product:
    the figurine collection, hence the product and the price the next
    request sees, is the one before the call. *)
Theorem create_order_preserves_products payload w :
  stored_product (snd (create_order validate_email float_of_str payload w))
  = stored_product w
  /\ named_records (snd (create_order validate_email float_of_str payload w))
     = named_records w.
Proof.
  split; [apply stored_product_after_order |].
  destruct (name_rejected payload) eqn:Hn;
    [now rewrite create_order_rejects_name |].
  destruct (quantity_rejected payload) eqn:Hq;
    [now rewrite create_order_rejects_quantity |].
  rewrite create_order_checked by assumption.
  destruct (unit_price_of float_of_str (stored_product w)) as [p|e];
    [destruct (order_of validate_email payload w p) as [order|e] |];
    unfold after_lookup, named_records; destruct w as [[d|] j]; reflexivity.
Qed.

(** X10: the endpoint is not idempotent.  Once an order has been
    stored, sending the same payload again succeeds again with the same
    total, stores a second document and returns a different
    identifier. *)
Theorem repeated_order_stored_twice payload w d out w1 :
  db w = Some d ->
  create_order validate_email float_of_str payload w = (Returned out, w1) ->
  exists out2 w2 d2,
    create_order validate_email float_of_str payload w1 = (Returned out2, w2)
    /\ out_total_usd out2 = out_total_usd out
    /\ order_id out2 <> order_id out
    /\ db w2 = Some d2
    /\ List.length (collection d2 "order")
       = (List.length (collection d "order") + 2)%nat.
Proof.
  intros Hdb Hrun.
  destruct (create_order_stored validate_email float_of_str payload w d out w1
              Hdb Hrun)
    as (p & order & Hp & Ho & Hn & Hq & Hout & Hw).
  assert (Hs : stored_product w1 = stored_product w).
  { pose proof (stored_product_after_order validate_email float_of_str
                  payload w) as E.
    now rewrite Hrun in E. }
  assert (Ho1 : order_of validate_email payload w1 p = Returned order)
    by (unfold order_of in *; now rewrite Hs).
  set (d1 := snd (insert_one "order" (OrderBody order) d)) in *.
  assert (Hdb1 : db w1 = Some d1) by (subst w1; reflexivity).
  rewrite create_order_checked, Hs, Hp, Ho1, Hdb1 by assumption.
  cbv zeta. destruct (insert_one "order" (OrderBody order) d1) as [id2 d2] eqn:Ei.
  do 3 eexists. split; [reflexivity |].
  assert (Eid : id2 = N.succ (next_id d))
    by (apply (f_equal fst) in Ei; cbn in Ei; now subst id2).
  assert (Ed2 : d2 = snd (insert_one "order" (OrderBody order) d1))
    by now rewrite Ei.
  subst out. cbn [out_total_usd order_id db record].
  split; [reflexivity |]. split; [rewrite Eid; apply str_of_id_succ |].
  split; [reflexivity |].
  rewrite Ed2, insert_one_same. subst d1. rewrite insert_one_same.
  rewrite !length_app. cbn. lia.
Qed.

End OrderInvariants.
(** ** What [get_product] reads and returns *)

Section ProductFacts.

Variable float_of_str : pystr -> option float.
Variable coerce_str : value -> option pystr.

Lemma get_product_run w :
  get_product float_of_str coerce_str w =
  (match stored_product w with
   | None => static_figurine
   | Some doc => read_figurine float_of_str coerce_str doc
   end,
   after_lookup w).
Proof.
  unfold get_product, stored_product, after_lookup, read_figurine.
  destruct w as [[d|] j];
    cbv beta iota delta [bind the_db find_one lift ret db journal record];
    [| reflexivity].
  destruct (find_least_id (collection d "figurine")) as [doc|]; [| reflexivity].
  cbv zeta.
  destruct (py_float _ (get_or (Doc.width_cm _) _)); [| reflexivity].
  destruct (py_float _ (get_or (Doc.height_cm _) _)); [| reflexivity].
  destruct (py_float _ (get_or (Doc.price_usd _) _)); reflexivity.
Qed.

Lemma Figurine_of_returned n w h m p i de c f :
  Figurine_of coerce_str n w h m p i de c = Returned f ->
  str_field coerce_str n = Some (name f)
  /\ ge0 w = true /\ ge0 h = true /\ ge0 p = true
  /\ width_cm f = w /\ height_cm f = h /\ price_usd f = p.
Proof.
  unfold Figurine_of.
  destruct (str_field coerce_str n) as [n'|]; [| discriminate].
  destruct (str_field coerce_str m) as [m'|]; [| discriminate].
  destruct (optional_list_field coerce_str i) as [i'|]; [| discriminate].
  destruct (optional_str_field coerce_str de) as [d'|]; [| discriminate].
  cbn [is_some check app].
  destruct (ge0 w), (ge0 h), (ge0 p); cbn; try discriminate.
  intros H. inversion H. cbn. tauto.
Qed.

Lemma str_items_dump l : str_items coerce_str (map VStr l) = Some l.
Proof.
  induction l as [|s l IH]; cbn; [reflexivity |]. now rewrite IH.
Qed.

(** On values of the declared types the constructor only checks the
    three numbers. *)
Lemma Figurine_of_typed n w h m p i de c :
  ge0 w = true -> ge0 h = true -> ge0 p = true ->
  Figurine_of coerce_str (VStr n) w h (VStr m) p (dump_list i) (dump_str de) c
  = Returned {| name := n; width_cm := w; height_cm := h; material := m;
                price_usd := p; images := i; description := de;
                customizable_base := c |}.
Proof.
  intros Hw Hh Hp. unfold Figurine_of. cbn [str_field].
  assert (Ei : optional_list_field coerce_str (dump_list i) = Some i).
  { destruct i as [l|]; cbn; [now rewrite str_items_dump | reflexivity]. }
  assert (Ed : optional_str_field coerce_str (dump_str de) = Some de).
  { destruct de as [s|]; reflexivity. }
  rewrite Ei, Ed, Hw, Hh, Hp. reflexivity.
Qed.

(** On such values the constructor agrees with [new_Figurine], the form
    it takes where the arguments are literals of the declared types. *)
Lemma Figurine_of_new_Figurine n w h m p i de c :
  Figurine_of coerce_str (VStr n) w h (VStr m) p (dump_list i) (dump_str de) c
  = new_Figurine (Some n) w h m p i de c.
Proof.
  unfold Figurine_of, new_Figurine. cbn [str_field].
  assert (Ei : optional_list_field coerce_str (dump_list i) = Some i).
  { destruct i as [l|]; cbn; [now rewrite str_items_dump | reflexivity]. }
  assert (Ed : optional_str_field coerce_str (dump_str de) = Some de).
  { destruct de as [s|]; reflexivity. }
  rewrite Ei, Ed. cbn [is_some check app].
  destruct (ge0 w), (ge0 h), (ge0 p); reflexivity.
Qed.

(** X11: [get_product] only reads.  Whatever it returns or raises, the
    store content is unchanged and the journal gains no insertion. *)
Theorem get_product_never_writes w :
  db (snd (get_product float_of_str coerce_str w)) = db w
  /\ writes (snd (get_product float_of_str coerce_str w)) = writes w.
Proof.
  rewrite get_product_run. cbn [snd]. unfold after_lookup.
  destruct (db w) eqn:Edb; [| now split].
  split; [exact Edb | apply writes_record_find].
Qed.

(** X12: a product stored by [create_document] reads back unchanged:
    when the earliest figurine document is the dump of a figurine whose
    three numbers are non-negative, [get_product] returns that
    figurine. *)
Theorem get_product_roundtrip w id f :
  ge0 (width_cm f) = true -> ge0 (height_cm f) = true ->
  ge0 (price_usd f) = true ->
  stored_product w = Some {| _id := id; content := model_dump (AFigurine f) |} ->
  fst (get_product float_of_str coerce_str w) = Returned f.
Proof.
  intros Hw Hh Hp Hs. rewrite get_product_run, Hs. cbn [fst].
  cbv beta iota zeta delta [read_figurine get_figurine content model_dump get_or
                            Doc.name Doc.width_cm Doc.height_cm Doc.material
                            Doc.price_usd Doc.images Doc.description
                            Doc.customizable_base py_float py_bool].
  rewrite Figurine_of_typed by assumption. now destruct f.
Qed.

(** X13: a stored product whose [name] key is absent or [None] makes
    [get_product] fail with status 500.  When the three numbers of the
    document can be read, the failure is the [ValidationError] of
    [Figurine(...)], naming [name]; otherwise the [float(...)] that
    fails raises first. *)
Theorem get_product_missing_name w doc :
  stored_product w = Some doc ->
  Doc.name (get_figurine doc) = None
  \/ Doc.name (get_figurine doc) = Some VNone ->
  (exists e, fst (get_product float_of_str coerce_str w) = Raised e)
  /\ http_status (fst (get_product float_of_str coerce_str w)) = 500
  /\ forall width height price,
       reads_as float_of_str
         (get_or (Doc.width_cm (get_figurine doc)) (VFloat 10.0)) width ->
       reads_as float_of_str
         (get_or (Doc.height_cm (get_figurine doc)) (VFloat 30.0)) height ->
       reads_as float_of_str
         (get_or (Doc.price_usd (get_figurine doc)) (VFloat 49.99)) price ->
       exists fields,
         fst (get_product float_of_str coerce_str w)
         = Raised (ValidationError "Figurine" fields)
         /\ In "name"%string fields.
Proof.
  intros Hs Hn. rewrite get_product_run, Hs. cbn [fst].
  assert (En : get_or (Doc.name (get_figurine doc)) VNone = VNone)
    by (destruct Hn as [E | E]; now rewrite E).
  assert (Hf : forall wd h m p i de c,
            exists fields,
              Figurine_of coerce_str VNone wd h m p i de c
              = Raised (ValidationError "Figurine" fields)
              /\ In "name"%string fields).
  { intros. unfold Figurine_of. cbn [str_field]. eexists.
    split; [reflexivity | now left]. }
  unfold read_figurine. cbv zeta. rewrite En.
  split; [| split].
  - destruct (py_float _ (get_or (Doc.width_cm _) _)) as [wd|e1]; [| eauto].
    destruct (py_float _ (get_or (Doc.height_cm _) _)) as [h|e2]; [| eauto].
    destruct (py_float _ (get_or (Doc.price_usd _) _)) as [p|e3]; [| eauto].
    edestruct Hf as (fields & E & _). rewrite E. eauto.
  - destruct (py_float _ (get_or (Doc.width_cm _) _)) as [wd|e1] eqn:E1;
      [| apply py_float_raises in E1;
         destruct E1 as [E | [E | E]]; subst; reflexivity].
    destruct (py_float _ (get_or (Doc.height_cm _) _)) as [h|e2] eqn:E2;
      [| apply py_float_raises in E2;
         destruct E2 as [E | [E | E]]; subst; reflexivity].
    destruct (py_float _ (get_or (Doc.price_usd _) _)) as [p|e3] eqn:E3;
      [| apply py_float_raises in E3;
         destruct E3 as [E | [E | E]]; subst; reflexivity].
    edestruct Hf as (fields & E & _). rewrite E. reflexivity.
  - intros wd h p Hw Hh Hp.
    apply py_float_reads in Hw, Hh, Hp. rewrite Hw, Hh, Hp. apply Hf.
Qed.

(** X14: a stored product that only has a [name] is completed with the
    defaults: 10.0 by 30.0 cm, "Plastic", 49.99, no images, no
    description, customizable base. *)
Theorem get_product_defaults w doc n :
  stored_product w = Some doc ->
  get_figurine doc
  = {| Doc.name := Some (VStr n); Doc.width_cm := None;
       Doc.height_cm := None; Doc.material := None; Doc.price_usd := None;
       Doc.images := None; Doc.description := None;
       Doc.customizable_base := None |} ->
  fst (get_product float_of_str coerce_str w)
  = Returned {| name := n; width_cm := 10.0; height_cm := 30.0;
                material := lit "Plastic"; price_usd := 49.99;
                images := None; description := None;
                customizable_base := true |}.
Proof.
  intros Hs Hd. rewrite get_product_run, Hs. cbn [fst].
  unfold read_figurine. cbv zeta. rewrite Hd. reflexivity.
Qed.

(** X15: every product [get_product] returns satisfies the schema: its
    width, height and price are non-negative (and not NaN). *)
Theorem get_product_schema w f :
  fst (get_product float_of_str coerce_str w) = Returned f ->
  ge0 (width_cm f) = true /\ ge0 (height_cm f) = true
  /\ ge0 (price_usd f) = true.
Proof.
  rewrite get_product_run. cbn [fst].
  destruct (stored_product w) as [doc|].
  - unfold read_figurine. cbv zeta.
    destruct (py_float _ (get_or (Doc.width_cm _) _)) as [wd|]; [| discriminate].
    destruct (py_float _ (get_or (Doc.height_cm _) _)) as [h|]; [| discriminate].
    destruct (py_float _ (get_or (Doc.price_usd _) _)) as [p|]; [| discriminate].
    intros H. apply Figurine_of_returned in H.
    destruct H as (_ & Hw & Hh & Hp & Ew & Eh & Ep). now rewrite Ew, Eh, Ep.
  - rewrite static_figurine_value. intros H. inversion H. cbn.
    repeat split; reflexivity.
Qed.

(** X16: the price the product endpoint shows is the unit price the
    order endpoint charges: whenever [get_product] returns a product,
    [create_order] in the same world reads its [unit_price] without
    error and finds that product's [price_usd]. *)
Theorem product_price_is_unit_price w f :
  fst (get_product float_of_str coerce_str w) = Returned f ->
  unit_price_of float_of_str (stored_product w) = Returned (price_usd f).
Proof.
  rewrite get_product_run. cbn [fst]. unfold unit_price_of.
  destruct (stored_product w) as [doc|].
  - unfold read_figurine. cbv zeta.
    destruct (py_float _ (get_or (Doc.width_cm _) _)) as [wd|]; [| discriminate].
    destruct (py_float _ (get_or (Doc.height_cm _) _)) as [h|]; [| discriminate].
    destruct (py_float _ (get_or (Doc.price_usd _) _)) as [p|]; [| discriminate].
    intros H. apply Figurine_of_returned in H.
    destruct H as (_ & _ & _ & _ & _ & _ & Ep). now rewrite Ep.
  - rewrite static_figurine_value. intros H. inversion H. reflexivity.
Qed.

End ProductFacts.

(** ** Which product is looked up *)

Lemma find_least_id_spec docs :
  match find_least_id docs with
  | None => docs = []
  | Some m => In m docs /\ forall doc, In doc docs -> (_id m <= _id doc)%N
  end.
Proof.
  induction docs as [|d rest IH]; cbn; [reflexivity |].
  destruct (find_least_id rest) as [m|].
  - destruct IH as [Hin Hmin].
    destruct (N.leb_spec (_id d) (_id m)) as [Hle | Hgt].
    + split; [now left |]. intros doc [E | Hd]; [subst; lia |].
      specialize (Hmin doc Hd). lia.
    + split; [now right |]. intros doc [E | Hd]; [subst; lia | auto].
  - subst rest. split; [now left |]. intros doc [E | []]. subst. lia.
Qed.

(** X17: the product both endpoints use is the figurine document with
    the least [_id]; there is none exactly when no store is attached or
    the figurine collection is empty. *)
Theorem stored_product_least w :
  match stored_product w with
  | Some doc =>
      exists d,
        db w = Some d
        /\ In doc (collection d "figurine")
        /\ forall other, In other (collection d "figurine") ->
                         (_id doc <= _id other)%N
  | None =>
      db w = None \/ exists d, db w = Some d /\ collection d "figurine" = []
  end.
Proof.
  unfold stored_product. destruct (db w) as [d|]; [| now left].
  pose proof (find_least_id_spec (collection d "figurine")) as H.
  destruct (find_least_id (collection d "figurine")) as [m|].
  - exists d. tauto.
  - right. exists d. tauto.
Qed.

(** ** What the startup hook leaves behind *)

Lemma find_least_id_some docs : docs <> [] -> find_least_id docs <> None.
Proof.
  destruct docs as [|d rest]; [congruence |]. intros _. cbn.
  destruct (find_least_id rest) as [m|]; [| discriminate].
  destruct (_id d <=? _id m)%N; discriminate.
Qed.

Lemma startup_run w d :
  db w = Some d ->
  fst (seed_figurine_product w) = Returned tt
  /\ exists d' extra,
       db (startup w) = Some d'
       /\ collection d' "figurine" = collection d "figurine" ++ extra
       /\ (forall c, c <> "figurine"%string -> collection d' c = collection d c)
       /\ extra = match find (name_is figurine_name) (collection d "figurine") with
                  | Some _ => []
                  | None => [seeded_document (next_id d)]
                  end.
Proof.
  intros Hdb. unfold startup. rewrite seed_run, Hdb.
  destruct (find (name_is figurine_name) (collection d "figurine")).
  - split; [reflexivity |]. exists d, []. cbn [snd record db].
    split; [exact Hdb |]. split; [now rewrite app_nil_r |]. now split.
  - split; [reflexivity |]. cbn [snd record db].
    eexists _, _. split; [reflexivity |]. cbn [collection].
    split; [reflexivity |]. split; [| reflexivity].
    intros c Hc. apply String.eqb_neq in Hc. now rewrite Hc.
Qed.

(** X18: the startup hook never raises, does nothing without a store,
    and with one only ever appends to the figurine collection: the
    documents already there stay in place, at most one is added (the
    fixed product, under the next identifier), and every other
    collection is untouched. *)
Theorem startup_only_appends w :
  fst (seed_figurine_product w) = Returned tt
  /\ match db w with
     | None => startup w = w
     | Some d =>
         exists d' extra,
           db (startup w) = Some d'
           /\ collection d' "figurine" = collection d "figurine" ++ extra
           /\ (extra = [] \/ extra = [seeded_document (next_id d)])
           /\ forall c, c <> "figurine"%string ->
                        collection d' c = collection d c
     end.
Proof.
  destruct (db w) as [d|] eqn:Edb.
  - destruct (startup_run w d Edb) as (Hr & d' & extra & Hdb & Hc & Ho & He).
    split; [exact Hr |]. exists d', extra. repeat split; auto.
    rewrite He. destruct (find _ _); auto.
  - unfold startup. rewrite seed_run, Edb. now split.
Qed.

(** X19: after startup with a store attached a product exists: at least
    one record carries the fixed name, and the lookup of both endpoints
    finds a document, so neither falls back to the built-in default for
    lack of a record. *)
Theorem startup_ensures_product w d :
  db w = Some d ->
  (1 <= named_records (startup w))%nat
  /\ stored_product (startup w) <> None.
Proof.
  intros Hdb.
  destruct (startup_run w d Hdb) as (_ & d' & extra & Hdb' & Hc & _ & He).
  pose proof (find_filter (name_is figurine_name) (collection d "figurine")) as F.
  unfold named_records, stored_product. rewrite Hdb', Hc.
  destruct (find (name_is figurine_name) (collection d "figurine")); subst extra.
  - rewrite app_nil_r. split.
    + destruct (filter _ _); [contradiction | cbn; lia].
    + apply find_least_id_some. intros E. rewrite E in F. now apply F.
  - split.
    + rewrite filter_app, F. cbn. lia.
    + apply find_least_id_some. now destruct (collection d "figurine").
Qed.

Section StartupThenRead.

Variable float_of_str : pystr -> option float.
Variable coerce_str : value -> option pystr.

(** X20: seeding an empty figurine collection does not change what the
    product endpoint answers: the seeded record becomes the stored
    product and reads back as the same product [get_product] returned as
    a fallback before, and orders keep being charged 49.99 a piece. *)
Theorem get_product_after_startup w d :
  db w = Some d ->
  collection d "figurine" = [] ->
  stored_product (startup w) = Some (seeded_document (next_id d))
  /\ fst (get_product float_of_str coerce_str (startup w))
     = fst (get_product float_of_str coerce_str w)
  /\ fst (get_product float_of_str coerce_str (startup w)) = static_figurine
  /\ unit_price_of float_of_str (stored_product (startup w))
     = Returned 49.99%float.
Proof.
  intros Hdb Hempty.
  destruct (startup_run w d Hdb) as (_ & d' & extra & Hdb' & Hc & _ & He).
  rewrite Hempty in He, Hc. cbn in He, Hc. rewrite He in Hc.
  assert (Hs : stored_product (startup w) = Some (seeded_document (next_id d)))
    by (unfold stored_product; now rewrite Hdb', Hc).
  assert (Hs0 : stored_product w = None)
    by (unfold stored_product; now rewrite Hdb, Hempty).
  rewrite !get_product_run, Hs, Hs0. cbn [fst].
  assert (Er : read_figurine float_of_str coerce_str
                 (seeded_document (next_id d)) = static_figurine).
  { rewrite static_figurine_value. unfold read_figurine, seeded_document.
    cbv beta iota zeta delta [get_figurine content model_dump get_or
                              Doc.name Doc.width_cm Doc.height_cm Doc.material
                              Doc.price_usd Doc.images Doc.description
                              Doc.customizable_base py_float py_bool
                              name width_cm height_cm material price_usd
                              images description customizable_base].
    now rewrite (Figurine_of_typed coerce_str). }
  rewrite Er. repeat split; reflexivity.
Qed.

End StartupThenRead.
(** ** The diagnostic endpoint *)

Section DiagnosticFacts.

Variable getattr_name : database -> attempt (option pystr).
Variable list_collection_names : database -> attempt (list pystr).
Variable getenv : string -> option pystr.

Import Diagnostics.

Lemma test_database_run w :
  test_database getattr_name list_collection_names getenv w
  = (Returned
       (set_database_name (env_flag (getenv "DATABASE_NAME"))
          (set_database_url (env_flag (getenv "DATABASE_URL"))
             (probe getattr_name list_collection_names (db w) initial))),
     w).
Proof. reflexivity. Qed.

(** X21: [GET /test] always answers and changes nothing, and its
    [database_url] and [database_name] entries only tell whether the two
    environment variables are set to a non-empty value: the values
    written while probing the handle ("Configured", the name of the
    database) never reach the response. *)
Theorem test_database_env_flags w :
  exists r,
    test_database getattr_name list_collection_names getenv w = (Returned r, w)
    /\ database_url r = Some (env_flag (getenv "DATABASE_URL"))
    /\ database_name r = Some (env_flag (getenv "DATABASE_NAME"))
    /\ (database_url r = Some (tick ++ lit " Set") <->
        exists v, getenv "DATABASE_URL" = Some v /\ v <> [])
    /\ (database_name r = Some (tick ++ lit " Set") <->
        exists v, getenv "DATABASE_NAME" = Some v /\ v <> []).
Proof.
  rewrite test_database_run. eexists. split; [reflexivity |].
  cbn [database_url database_name set_database_name set_database_url].
  split; [reflexivity |]. split; [reflexivity |].
  assert (F : forall v, Some (env_flag v) = Some (tick ++ lit " Set") <->
                        exists s, v = Some s /\ s <> []).
  { intros [[|c t]|]; cbn; split.
    - discriminate.
    - intros (s & E & Hs). inversion E. congruence.
    - intros _. eexists. split; [reflexivity | discriminate].
    - reflexivity.
    - discriminate.
    - intros (s & E & _). discriminate. }
  split; apply F.
Qed.

(** X22: the response lists at most 10 collections: the first 10 names
    the driver reports, and none when there is no handle or a call on it
    fails. *)
Theorem test_database_collections w :
  exists r,
    fst (test_database getattr_name list_collection_names getenv w) = Returned r
    /\ (List.length (collections r) <= 10)%nat
    /\ collections r
       = match db w with
         | Some d =>
             match getattr_name d, list_collection_names d with
             | Got _, Got names => firstn 10 names
             | _, _ => []
             end
         | None => []
         end.
Proof.
  rewrite test_database_run. eexists. split; [reflexivity |].
  cbn [collections set_database_name set_database_url].
  assert (E : collections (probe getattr_name list_collection_names (db w) initial)
              = match db w with
                | Some d =>
                    match getattr_name d, list_collection_names d with
                    | Got _, Got names => firstn 10 names
                    | _, _ => []
                    end
                | None => []
                end).
  { unfold probe. destruct (db w) as [d|]; [| reflexivity].
    destruct (getattr_name d); [| reflexivity].
    destruct (list_collection_names d); reflexivity. }
  split; [| exact E]. rewrite E.
  destruct (db w) as [d|]; [| cbn; lia].
  destruct (getattr_name d); [| cbn; lia].
  destruct (list_collection_names d); [| cbn; lia].
  rewrite length_firstn. lia.
Qed.

(** X23: the [database] entry never keeps its initial "Not Available".
    It reads "Connected & Working" exactly when there is a handle and
    both calls on it succeed, and [connection_status] reads "Connected"
    exactly when there is a handle whose name could be read; a failing
    call is reported with at most 50 characters of its message. *)
Theorem test_database_status w :
  exists r,
    fst (test_database getattr_name list_collection_names getenv w) = Returned r
    /\ database r <> database initial
    /\ (database r = tick ++ lit " Connected & Working" <->
        exists d a names,
          db w = Some d /\ getattr_name d = Got a
          /\ list_collection_names d = Got names)
    /\ (connection_status r = lit "Connected" <->
        exists d a, db w = Some d /\ getattr_name d = Got a)
    /\ (forall d a message,
          db w = Some d -> getattr_name d = Got a ->
          list_collection_names d = Threw message ->
          database r
          = warning ++ lit "  Connected but Error: " ++ firstn 50 message)
    /\ (db w = None ->
        database r = warning ++ lit "  Available but not initialized").
Proof.
  rewrite test_database_run. eexists. split; [reflexivity |].
  cbn [database connection_status set_database_name set_database_url].
  unfold probe.
  destruct (db w) as [d|].
  - destruct (getattr_name d) as [a|m] eqn:Ea.
    + destruct (list_collection_names d) as [names|m] eqn:El.
      * cbn [database connection_status set_database set_database_url
             set_database_name set_connection_status set_collections initial].
        split; [discriminate |].
        split; [split; [intros _; now exists d, a, names | reflexivity] |].
        split; [split; [intros _; now exists d, a | reflexivity] |].
        split; [| discriminate].
        intros d0 a0 m0 E. inversion E; subst d0. congruence.
      * cbn [database connection_status set_database set_database_url
             set_database_name set_connection_status set_collections initial].
        split; [discriminate |].
        split.
        { split; [discriminate |].
          intros (d0 & a0 & names & E & _ & El'). inversion E; subst d0.
          congruence. }
        split; [split; [intros _; now exists d, a | reflexivity] |].
        split; [| discriminate].
        intros d0 a0 m0 E _ El'. inversion E; subst d0.
        rewrite El in El'. inversion El'. reflexivity.
    + cbn [database connection_status set_database set_database_url
           set_database_name set_connection_status set_collections initial].
      split; [discriminate |].
      split.
      { split; [discriminate |].
        intros (d0 & a0 & names & E & Ea' & _). inversion E; subst d0.
        congruence. }
      split.
      { split; [discriminate |].
        intros (d0 & a0 & E & Ea'). inversion E; subst d0. congruence. }
      split; [| discriminate].
      intros d0 a0 m0 E Ea'. inversion E; subst d0. congruence.
  - cbn [database connection_status set_database initial].
    split; [discriminate |].
    split; [split; [discriminate | intros (d & _ & _ & E & _); discriminate] |].
    split; [split; [discriminate | intros (d & _ & E & _); discriminate] |].
    split; [discriminate | reflexivity].
Qed.

End DiagnosticFacts.

(** ** Identifiers as strings, continued *)

Lemma hex_digits_chars n : forall v, forallb hex_char (hex_digits n v []) = true.
Proof.
  induction n as [|n IH]; intros v; [reflexivity |].
  rewrite hex_digits_last, forallb_app, IH. cbn [forallb andb].
  rewrite andb_true_r.
  assert (Hlt : (v mod 16 < 16)%N) by (apply N.mod_lt; discriminate).
  unfold hex_char, hex_digit.
  generalize dependent (v mod 16)%N. intros x Hlt.
  destruct (N.ltb_spec x 10).
  - replace (48 <=? 48 + x)%N with true by (symmetry; apply N.leb_le; lia).
    replace (48 + x <=? 57)%N with true by (symmetry; apply N.leb_le; lia).
    reflexivity.
  - replace (97 <=? 87 + x)%N with true by (symmetry; apply N.leb_le; lia).
    replace (87 + x <=? 102)%N with true by (symmetry; apply N.leb_le; lia).
    now rewrite orb_true_r.
Qed.

(** X24: [str] of an identifier is 24 lower-case hexadecimal digits, and
    two identifiers of 96 bits with the same string are the same
    identifier, so the [product_id] of an order and the [order_id]
    returned to the client each designate one document. *)
Theorem str_of_id_injective a b :
  (a < 2 ^ 96)%N -> (b < 2 ^ 96)%N ->
  List.length (str_of_id a) = 24%nat
  /\ forallb hex_char (str_of_id a) = true
  /\ (str_of_id a = str_of_id b -> a = b).
Proof.
  intros Ha Hb. unfold str_of_id.
  split; [apply hex_digits_length |]. split; [apply hex_digits_chars |].
  intros H. apply hex_digits_inj in H.
  replace (16 ^ N.of_nat 24)%N with (2 ^ 96)%N in H by reflexivity.
  now rewrite !N.mod_small in H by assumption.
Qed.

(** ** The further properties on concrete requests *)

Lemma create_order_failure_writes_nothing_witness :
  db (snd (create_order single_at_sign digits_only
             (order_for "Billie" 1 "not-an-email" "1 Main Street")
             priced_store))
  = db priced_store.
Proof.
  eapply (create_order_failure_writes_nothing single_at_sign digits_only
            (order_for "Billie" 1 "not-an-email" "1 Main Street")
            priced_store).
  vm_compute. reflexivity.
Defined.

Lemma order_validation_error_fields_witness :
  ["customer_email"; "shipping_address"]%string <> []
  /\ ~ In "custom_name"%string ["customer_email"; "shipping_address"]%string
  /\ ~ In "quantity"%string ["customer_email"; "shipping_address"]%string.
Proof.
  destruct (order_validation_error_fields single_at_sign digits_only
              (order_for "Billie" 1 "not-an-email" "1 Main") priced_store
              "Order" ["customer_email"; "shipping_address"]%string)
    as (_ & Hne & Hn & Hq & _).
  - vm_compute. reflexivity.
  - split; [exact Hne |]. split; [exact Hn | exact Hq].
Defined.

Lemma create_order_persists_witness :
  exists d' order,
    db (snd (create_order single_at_sign digits_only sample_order priced_store)) = Some d'
    /\ List.length (collection d' "order") = 1%nat
    /\ custom_name order = lit "Billie Jean"
    /\ quantity order = 3.
Proof.
  edestruct (create_order_persists single_at_sign digits_only sample_order
               priced_store)
    as (d' & order & Hdb & Hc & _ & _ & _ & _ & Hn & Hq & _).
  - reflexivity.
  - vm_compute. reflexivity.
  - exists d', order. split; [exact Hdb |]. split; [now rewrite Hc |].
    split; [exact Hn | exact Hq].
Defined.

Lemma stored_name_trimmed_witness :
  exists d' order,
    db (snd (create_order single_at_sign digits_only sample_order priced_store)) = Some d'
    /\ In {| _id := 2; content := OrderBody order |} (collection d' "order")
    /\ strip (custom_name order) = custom_name order.
Proof.
  edestruct (stored_name_trimmed single_at_sign digits_only sample_order
               priced_store)
    as (d' & order & Hdb & Hin & _ & _ & _ & Hs).
  - reflexivity.
  - vm_compute. reflexivity.
  - exists d', order. split; [exact Hdb |]. split; [exact Hin | exact Hs].
Defined.

Lemma create_order_ignores_padding_witness :
  create_order single_at_sign digits_only
    (with_custom_name (order_for "Billie Jean" 3 "fan@example.com" "1 Main Street")
       (lit "  " ++ lit "Billie Jean" ++ [9; 160]%N))
    priced_store
  = create_order single_at_sign digits_only
      (order_for "Billie Jean" 3 "fan@example.com" "1 Main Street") priced_store.
Proof.
  apply (create_order_ignores_padding single_at_sign digits_only
           (order_for "Billie Jean" 3 "fan@example.com" "1 Main Street"));
    reflexivity.
Defined.

Lemma order_total_nonneg_witness :
  ge0 (total_of 20.0 sample_order) = true.
Proof. apply order_total_nonneg; by_computation. Defined.

Lemma repeated_order_stored_twice_witness :
  exists out2 w2 d2,
    create_order single_at_sign digits_only sample_order
      (snd (create_order single_at_sign digits_only sample_order priced_store))
    = (Returned out2, w2)
    /\ order_id out2 <> lit "000000000000000000000002"
    /\ db w2 = Some d2
    /\ List.length (collection d2 "order") = 2%nat.
Proof.
  edestruct (repeated_order_stored_twice single_at_sign digits_only
               sample_order priced_store)
    as (out2 & w2 & d2 & Hrun & _ & Hid & Hdb & Hlen).
  - reflexivity.
  - vm_compute. reflexivity.
  - exists out2, w2, d2. split; [exact Hrun |]. split; [exact Hid |].
    split; [exact Hdb | exact Hlen].
Defined.

Lemma get_product_roundtrip_witness :
  fst (get_product digits_only no_coercion (snd (seed_figurine_product empty_store)))
  = Returned {| name := figurine_name; width_cm := 10.0; height_cm := 30.0;
                material := lit "Plastic"; price_usd := 49.99;
                images := Some [figurine_image];
                description := Some figurine_description;
                customizable_base := true |}.
Proof.
  apply (get_product_roundtrip digits_only no_coercion
           (snd (seed_figurine_product empty_store)) 1);
    reflexivity.
Defined.

Lemma get_product_missing_name_witness :
  http_status
    (fst (get_product digits_only no_coercion
            (figurine_store [bare_document None])))
  = 500
  /\ exists fields,
       fst (get_product digits_only no_coercion
              (figurine_store [bare_document None]))
       = Raised (ValidationError "Figurine" fields)
       /\ In "name"%string fields.
Proof.
  destruct (get_product_missing_name digits_only no_coercion
              (figurine_store [bare_document None]) (bare_document None))
    as (_ & Hs & Hv).
  - reflexivity.
  - left. reflexivity.
  - split; [exact Hs |].
    apply (Hv 10.0%float 30.0%float 49.99%float); constructor.
Defined.

Lemma get_product_defaults_witness :
  fst (get_product digits_only no_coercion
         (figurine_store [bare_document (Some (VStr (lit "Moonwalker")))]))
  = Returned {| name := lit "Moonwalker"; width_cm := 10.0; height_cm := 30.0;
                material := lit "Plastic"; price_usd := 49.99;
                images := None; description := None;
                customizable_base := true |}.
Proof.
  apply (get_product_defaults digits_only no_coercion
           (figurine_store [bare_document (Some (VStr (lit "Moonwalker")))])
           (bare_document (Some (VStr (lit "Moonwalker"))))); reflexivity.
Defined.

Lemma get_product_schema_witness :
  ge0 20.0 = true.
Proof.
  apply (get_product_schema digits_only no_coercion priced_store
           {| name := figurine_name; width_cm := 10.0; height_cm := 30.0;
              material := lit "Plastic"; price_usd := 20.0;
              images := None; description := None;
              customizable_base := true |}).
  vm_compute. reflexivity.
Defined.

Lemma product_price_is_unit_price_witness :
  unit_price_of digits_only (stored_product priced_store)
  = Returned 20.0%float.
Proof.
  apply (product_price_is_unit_price digits_only no_coercion priced_store
           {| name := figurine_name; width_cm := 10.0; height_cm := 30.0;
              material := lit "Plastic"; price_usd := 20.0;
              images := None; description := None;
              customizable_base := true |}).
  vm_compute. reflexivity.
Defined.

Lemma startup_ensures_product_witness :
  (1 <= named_records (startup (figurine_store [bare_document None])))%nat
  /\ stored_product (startup (figurine_store [bare_document None])) <> None.
Proof.
  eapply (startup_ensures_product (figurine_store [bare_document None])).
  reflexivity.
Defined.

Lemma get_product_after_startup_witness :
  fst (get_product digits_only no_coercion (startup empty_store)) = fst (get_product digits_only no_coercion empty_store).
Proof.
  eapply (get_product_after_startup digits_only no_coercion empty_store);
    reflexivity.
Defined.

Lemma str_of_id_injective_witness :
  List.length (str_of_id 255) = 24%nat
  /\ forallb hex_char (str_of_id 255) = true
  /\ (str_of_id 255 = str_of_id 4096 -> 255%N = 4096%N).
Proof. apply str_of_id_injective; reflexivity. Defined.

Example str_of_id_sample : str_of_id 255 = lit "0000000000000000000000ff".
Proof. reflexivity. Qed.

Example test_database_offline :
  fst (Diagnostics.test_database (fun _ => Got None) (fun _ => Got [])
         (fun _ => None) offline)
  = Returned
      {| Diagnostics.backend := Diagnostics.tick ++ lit " Running";
         Diagnostics.database :=
           Diagnostics.warning ++ lit "  Available but not initialized";
         Diagnostics.database_url := Some (Diagnostics.cross ++ lit " Not Set");
         Diagnostics.database_name := Some (Diagnostics.cross ++ lit " Not Set");
         Diagnostics.connection_status := lit "Not Connected";
         Diagnostics.collections := [] |}.
Proof. reflexivity. Qed.


Example get_product_unreadable_price :
  fst (get_product digits_only no_coercion (figurine_store [unpriced_document]))
  = Raised TypeError.
Proof. reflexivity. Qed.

Example get_product_price_as_text :
  fst (get_product digits_only no_coercion
         (figurine_store
            [{| _id := 5;
                content :=
                  FigurineBody
                    {| Doc.name := Some (VStr (lit "Moonwalker"));
                       Doc.width_cm := None; Doc.height_cm := None;
                       Doc.material := None;
                       Doc.price_usd := Some (VStr (lit "25"));
                       Doc.images := None; Doc.description := None;
                       Doc.customizable_base := Some VNone |} |}]))
  = Returned {| name := lit "Moonwalker"; width_cm := 10.0; height_cm := 30.0;
                material := lit "Plastic"; price_usd := 25.0;
                images := None; description := None;
                customizable_base := false |}.
Proof. vm_compute. reflexivity. Qed.
